(** * A shallow embedding of the Hubble desktop shell client
    (src/clients/desktop-shell.cpp): outputs and their panel/background
    surfaces, the readiness barrier, clone reconciliation on output
    removal, the configure handlers, the lock dialog, the launcher
    command parser and the configuration parsers. *)

From stdpp Require Import base gmap list strings.
From Stdlib Require Import ZArith Ascii String.

Open Scope Z_scope.

(* ================================================================= *)
(** ** Enumerations *)

Inductive ClockFormat :=
| Minutes | Seconds | Minutes24h | Seconds24h | Iso | None_.

(** [enum weston_desktop_shell_panel_position] *)
Inductive PanelPosition :=
| POSITION_TOP | POSITION_BOTTOM | POSITION_LEFT | POSITION_RIGHT.

(** [Background::Type] *)
Inductive BgType := Scale | ScaleCrop | Tile | Centered | Invalid.

Definition ClockFormat_eqb (a b : ClockFormat) : bool :=
  match a, b with
  | Minutes, Minutes | Seconds, Seconds | Minutes24h, Minutes24h
  | Seconds24h, Seconds24h | Iso, Iso | None_, None_ => true
  | _, _ => false
  end.

Definition BgType_eqb (a b : BgType) : bool :=
  match a, b with
  | Scale, Scale | ScaleCrop, ScaleCrop | Tile, Tile
  | Centered, Centered | Invalid, Invalid => true
  | _, _ => false
  end.

(* ================================================================= *)
(** ** Objects *)

(** The address of a heap-allocated [Output] object ([Output*]). *)
Abbreviation addr := nat.

(** [class Panel]: the fields the shell logic reads.  [p_painted] is the
    [_painted] member; [p_position] and [p_clock_format] are the copies
    of the global policy taken by [Panel::Panel]; [p_has_clock] says
    whether [add_clock] ran; [p_launchers] is the number of launchers. *)
Record Panel := mkPanel {
  p_owner : addr;
  p_painted : bool;
  p_position : PanelPosition;
  p_clock_format : ClockFormat;
  p_has_clock : bool;
  p_launchers : nat;
}.

(** [class Background] (allocated with [xzalloc]). *)
Record Background := mkBackground {
  b_owner : addr;
  b_painted : bool;
  b_image : option string;
  b_type : BgType;
  b_color : Z;
}.

(** [class Output]. *)
Record Output := mkOutput {
  server_output_id : Z;
  o_x : Z;
  o_y : Z;
  o_panel : option Panel;
  o_background : option Background;
}.

(** [class Desktop], with the configuration values the constructors of
    [Panel] and [Background] read from the [shell] section. *)
Record Desktop := mkDesktop {
  shell : bool;                      (* desktop->shell != nullptr *)
  outputs : list addr;               (* pr::Vector<Output*> outputs *)
  heap : gmap addr Output;           (* the live Output objects *)
  next_addr : addr;                  (* fresh address for [new Output] *)
  want_panel : bool;
  panel_position : PanelPosition;
  clock_format : ClockFormat;
  painted : bool;
  cfg_launchers : nat;               (* valid [launcher] sections *)
  cfg_bg_image : option string;      (* background-image *)
  cfg_bg_color : Z;                  (* background-color *)
  cfg_bg_type : string;              (* background-type *)
}.

(** Requests sent to the compositor or to the toolkit. *)
Inductive SurfaceKind := SPanel | SBackground.

Inductive Request :=
| ReqDesktopReady                          (* weston_desktop_shell_desktop_ready *)
| ReqSetPanel (a : addr)                   (* weston_desktop_shell_set_panel *)
| ReqSetBackground (a : addr)              (* weston_desktop_shell_set_background *)
| ReqDestroyPanel (p : Panel)              (* delete panel *)
| ReqDestroyBackground (b : Background)    (* background_destroy *)
| ReqWindowResize (owner : addr) (w h : Z) (* window_schedule_resize (panel) *)
| ReqWidgetResize (owner : addr) (w h : Z) (* widget_schedule_resize (background) *)
| ReqViewport (owner : addr) (w h : Z)     (* widget_set_viewport_destination *)
| ReqTransform (k : SurfaceKind) (owner : addr) (t : Z)
| ReqScale (k : SurfaceKind) (owner : addr) (s : Z).

(** Record updates. *)
Definition set_panel (o : Output) (p : option Panel) : Output :=
  mkOutput (server_output_id o) (o_x o) (o_y o) p (o_background o).
Definition set_background (o : Output) (b : option Background) : Output :=
  mkOutput (server_output_id o) (o_x o) (o_y o) (o_panel o) b.
Definition set_xy (o : Output) (x y : Z) : Output :=
  mkOutput (server_output_id o) x y (o_panel o) (o_background o).
Definition panel_set_owner (p : Panel) (a : addr) : Panel :=
  mkPanel a (p_painted p) (p_position p) (p_clock_format p)
    (p_has_clock p) (p_launchers p).
Definition panel_set_painted (p : Panel) : Panel :=
  mkPanel (p_owner p) true (p_position p) (p_clock_format p)
    (p_has_clock p) (p_launchers p).
Definition bg_set_owner (b : Background) (a : addr) : Background :=
  mkBackground a (b_painted b) (b_image b) (b_type b) (b_color b).
Definition bg_set_painted (b : Background) : Background :=
  mkBackground (b_owner b) true (b_image b) (b_type b) (b_color b).

Definition with_heap (d : Desktop) (h : gmap addr Output) : Desktop :=
  mkDesktop (shell d) (outputs d) h (next_addr d) (want_panel d)
    (panel_position d) (clock_format d) (painted d) (cfg_launchers d)
    (cfg_bg_image d) (cfg_bg_color d) (cfg_bg_type d).
Definition with_painted (d : Desktop) (b : bool) : Desktop :=
  mkDesktop (shell d) (outputs d) (heap d) (next_addr d) (want_panel d)
    (panel_position d) (clock_format d) b (cfg_launchers d)
    (cfg_bg_image d) (cfg_bg_color d) (cfg_bg_type d).
Definition with_shell (d : Desktop) : Desktop :=
  mkDesktop true (outputs d) (heap d) (next_addr d) (want_panel d)
    (panel_position d) (clock_format d) (painted d) (cfg_launchers d)
    (cfg_bg_image d) (cfg_bg_color d) (cfg_bg_type d).
(* ================================================================= *)
(** ** Configuration parsers *)

(** [Desktop::parse_clock_format]: the [clock-format] key read with
    default [""]; the parser writes no diagnostic (empty log). *)
Definition parse_clock_format (v : option string) : ClockFormat * list string :=
  let s := default ""%string v in
  if String.eqb s "minutes" then (Minutes, [])
  else if String.eqb s "seconds" then (Seconds, [])
  else if String.eqb s "minutes-24h" then (Minutes24h, [])
  else if String.eqb s "seconds-24h" then (Seconds24h, [])
  else if String.eqb s "none" then (None_, [])
  else (Iso, []).

(** The [background-type] branch of [background_create]; the second
    component is what is printed on stderr. *)
Definition parse_background_type (type : string) : BgType * list string :=
  if String.eqb type "scale" then (Scale, [])
  else if String.eqb type "scale-crop" then (ScaleCrop, [])
  else if String.eqb type "tile" then (Tile, [])
  else if String.eqb type "centered" then (Centered, [])
  else (Invalid, [("invalid background-type: " ++ type)%string]).

(* ================================================================= *)
(** ** Constructors *)

(** [background_create]: the object is zero-filled ([xzalloc]), so
    [painted] starts at 0. *)
Definition background_create (d : Desktop) (a : addr) : Background :=
  mkBackground a false (cfg_bg_image d)
    (fst (parse_background_type (cfg_bg_type d))) (cfg_bg_color d).

(** [Panel::Panel]: the constructor copies the global policy and adds a
    clock unless the format is [None]; it never assigns [_painted], whose
    initial value [junk] is therefore whatever the allocation holds. *)
Definition Panel_new (d : Desktop) (a : addr) (junk : bool) : Panel :=
  mkPanel a junk (panel_position d) (clock_format d)
    (negb (ClockFormat_eqb (clock_format d) None_))
    (if (cfg_launchers d =? 0)%nat then 1%nat else cfg_launchers d).

(** [Output::init]. *)
Definition Output_init (d : Desktop) (a : addr) (o : Output) (junk : bool)
  : Output * list Request :=
  let '(o1, r1) :=
    if want_panel d then (set_panel o (Some (Panel_new d a junk)), [ReqSetPanel a])
    else (o, []) in
  (set_background o1 (Some (background_create d a)), r1 ++ [ReqSetBackground a]).

(** [Output::Output(id)] ([new Output(id)] from [global_handler]): [_x],
    [_y] are not initialised here, [x0] and [y0] stand for their values. *)
Definition Output_new (d : Desktop) (id x0 y0 : Z) (junk : bool)
  : Desktop * list Request :=
  let a := next_addr d in
  let o := mkOutput id x0 y0 None None in
  let '(o', rs) := if shell d then Output_init d a o junk else (o, []) in
  (mkDesktop (shell d) (outputs d ++ [a]) (<[a := o']> (heap d)) (S a)
     (want_panel d) (panel_position d) (clock_format d) (painted d)
     (cfg_launchers d) (cfg_bg_image d) (cfg_bg_color d) (cfg_bg_type d),
   rs).

(* ================================================================= *)
(** ** Readiness barrier *)

(** [Desktop::is_painted].  [None] stands for undefined behaviour: the
    loop dereferences an [Output*] whose object has been deleted. *)
Fixpoint is_painted_from (h : gmap addr Output) (l : list addr) : option bool :=
  match l with
  | [] => Some true
  | a :: l' =>
      match h !! a with
      | None => None
      | Some o =>
          if match o_panel o with Some p => negb (p_painted p) | None => false end
          then Some false
          else if match o_background o with
                  | Some b => negb (b_painted b) | None => false end
          then Some false
          else is_painted_from h l'
      end
  end.

Definition is_painted (d : Desktop) : option bool :=
  is_painted_from (heap d) (outputs d).

(** [check_desktop_ready]: [!desktop->painted && desktop->is_painted()]. *)
Definition check_desktop_ready (d : Desktop) : option (Desktop * list Request) :=
  if painted d then Some (d, [])
  else match is_painted d with
       | None => None
       | Some true => Some (with_painted d true, [ReqDesktopReady])
       | Some false => Some (d, [])
       end.

(** [panel_redraw_handler] for the panel of the Output at [a]. *)
Definition panel_redraw (d : Desktop) (a : addr) : option (Desktop * list Request) :=
  match heap d !! a with
  | Some o =>
      match o_panel o with
      | Some p =>
          check_desktop_ready
            (with_heap d (<[a := set_panel o (Some (panel_set_painted p))]> (heap d)))
      | None => None
      end
  | None => None
  end.

(** [background_draw] for the background of the Output at [a] (the
    drawing itself is modelled in [background_draw_ops]). *)
Definition background_redraw (d : Desktop) (a : addr) : option (Desktop * list Request) :=
  match heap d !! a with
  | Some o =>
      match o_background o with
      | Some b =>
          check_desktop_ready
            (with_heap d (<[a := set_background o (Some (bg_set_painted b))]> (heap d)))
      | None => None
      end
  | None => None
  end.

(* ================================================================= *)
(** ** Output removal and clone reconciliation *)

(** [delete panel] ([Panel::~Panel]): each launcher goes through
    [panel_destroy_launcher], whose [wl_list_remove(&launcher->link)]
    writes through the link's [prev] pointer.  [panel_add_launcher] never
    inserts the link (its [wl_list_insert] is commented out), so the link
    of the [xzalloc]ed launcher is still zero and [wl_list_remove]
    dereferences a null pointer: a fault ([None]) as soon as the panel has
    a launcher. *)
Definition panel_destroy (p : Panel) : option (list Request) :=
  if (p_launchers p =? 0)%nat then Some [ReqDestroyPanel p] else None.

(** [Output::~Output]: destroys the owned background, then the panel. *)
Definition Output_destroy_reqs (o : Output) : option (list Request) :=
  let rb := match o_background o with Some b => [ReqDestroyBackground b] | None => [] end in
  match o_panel o with
  | Some p =>
      match panel_destroy p with Some rp => Some (rb ++ rp) | None => None end
  | None => Some rb
  end.

(** The clone scan of [Desktop::remove_output]: the first element of the
    collection other than [a] whose position is [(x, y)].  [None] is
    undefined behaviour (a deleted Output is dereferenced). *)
Fixpoint find_clone (h : gmap addr Output) (l : list addr) (a : addr) (x y : Z)
  : option (option addr) :=
  match l with
  | [] => Some None
  | cur :: l' =>
      if (cur =? a)%nat then find_clone h l' a x y
      else match h !! cur with
           | None => None
           | Some c => if (o_x c =? x) && (o_y c =? y) then Some (Some cur)
                       else find_clone h l' a x y
           end
  end.

(** The hand-over to the clone [rep] at address [r]: background first,
    then panel; returns the updated clone and the removed Output. *)
Definition hand_over (r : addr) (rep o : Output) : Output * Output :=
  let '(rep1, o1) :=
    match o_background rep with
    | None => (set_background rep (option_map (fun b => bg_set_owner b r) (o_background o)),
               set_background o None)
    | Some _ => (rep, o)
    end in
  match o_panel rep1 with
  | None => (set_panel rep1 (option_map (fun p => panel_set_owner p r) (o_panel o1)),
             set_panel o1 None)
  | Some _ => (rep1, o1)
  end.

(** [Desktop::remove_output].  The collection [outputs] is left as it
    is: the code deletes the object but never erases the pointer. *)
Definition remove_output (d : Desktop) (a : addr) : option (Desktop * list Request) :=
  match heap d !! a with
  | None => None
  | Some o =>
      match o_background o with
      | None =>
          match Output_destroy_reqs o with
          | Some rs => Some (with_heap d (delete a (heap d)), rs)
          | None => None
          end
      | Some _ =>
          match find_clone (heap d) (outputs d) a (o_x o) (o_y o) with
          | None => None
          | Some None =>
              match Output_destroy_reqs o with
              | Some rs => Some (with_heap d (delete a (heap d)), rs)
              | None => None
              end
          | Some (Some r) =>
              match heap d !! r with
              | None => None
              | Some rep =>
                  let '(rep', o') := hand_over r rep o in
                  match Output_destroy_reqs o' with
                  | Some rs => Some (with_heap d (delete a (<[r := rep']> (heap d))), rs)
                  | None => None
                  end
              end
          end
      end
  end.

(** The lookup loop of [global_handler_remove]. *)
Fixpoint find_by_id (h : gmap addr Output) (l : list addr) (id : Z)
  : option (option addr) :=
  match l with
  | [] => Some None
  | a :: l' =>
      match h !! a with
      | None => None
      | Some o => if server_output_id o =? id then Some (Some a)
                  else find_by_id h l' id
      end
  end.

(** [global_handler_remove] for a [wl_output] global. *)
Definition global_handler_remove (d : Desktop) (id : Z)
  : option (Desktop * list Request) :=
  match find_by_id (heap d) (outputs d) id with
  | None => None
  | Some None => Some (d, [])
  | Some (Some a) => remove_output d a
  end.

(* ================================================================= *)
(** ** Configure handlers *)

(** The size override of [panel_configure] for a non-zero proposal; it
    reads [desktop->panel_position] and [desktop->clock_format]. *)
Definition panel_configure_size (pos : PanelPosition) (cf : ClockFormat) (width height : Z)
  : Z * Z :=
  match pos with
  | POSITION_TOP | POSITION_BOTTOM => (width, 32)
  | POSITION_LEFT | POSITION_RIGHT =>
      match cf with
      | Iso | None_ => (32, height)
      | Minutes | Minutes24h | Seconds24h => (150, height)
      | Seconds => (170, height)
      end
  end.

(** [panel_configure] for the panel [p] (the window's user data).  The
    zero-size branch runs [delete panel] before [owner->set_panel]. *)
Definition panel_configure (d : Desktop) (p : Panel) (width height : Z)
  : option (Desktop * list Request) :=
  if (width <? 1) || (height <? 1) then
    match heap d !! p_owner p with
    | None => None
    | Some owner =>
        match panel_destroy p with
        | None => None
        | Some rs =>
            Some (with_heap d (<[p_owner p := set_panel owner None]> (heap d)), rs)
        end
    end
  else
    let '(w, h) := panel_configure_size (panel_position d) (clock_format d) width height in
    Some (d, [ReqWindowResize (p_owner p) w h]).

(** [background_configure] for the background [b]. *)
Definition background_configure (d : Desktop) (b : Background) (width height : Z)
  : option (Desktop * list Request) :=
  if (width <? 1) || (height <? 1) then
    match heap d !! b_owner b with
    | None => None
    | Some owner =>
        Some (with_heap d (<[b_owner b := set_background owner None]> (heap d)),
              [ReqDestroyBackground b])
    end
  else if match b_image b with None => negb (b_color b =? 0) | Some _ => false end then
    Some (d, [ReqViewport (b_owner b) width height; ReqWidgetResize (b_owner b) 1 1])
  else Some (d, [ReqWidgetResize (b_owner b) width height]).

(** [output_handle_geometry]. *)
Definition output_handle_geometry (d : Desktop) (a : addr) (x y transform : Z)
  : option (Desktop * list Request) :=
  match heap d !! a with
  | None => None
  | Some o =>
      Some (with_heap d (<[a := set_xy o x y]> (heap d)),
            match o_panel o with Some _ => [ReqTransform SPanel a transform] | None => [] end ++
            match o_background o with
            | Some _ => [ReqTransform SBackground a transform] | None => [] end)
  end.

(** [output_handle_scale]. *)
Definition output_handle_scale (d : Desktop) (a : addr) (scale : Z)
  : option (Desktop * list Request) :=
  match heap d !! a with
  | None => None
  | Some o =>
      Some (d,
            match o_panel o with Some _ => [ReqScale SPanel a scale] | None => [] end ++
            match o_background o with
            | Some _ => [ReqScale SBackground a scale] | None => [] end)
  end.

(* ================================================================= *)
(** ** Event dispatch *)

(** Events delivered by the event loop.  [EvGlobalOutput] carries, next
    to the global id, the indeterminate initial values of the members the
    constructors leave unset ([Output::_x], [Output::_y],
    [Panel::_painted]).  Surface events name the Output owning the
    surface. *)
Inductive Event :=
| EvGlobalShell
| EvGlobalOutput (id x0 y0 : Z) (junk : bool)
| EvGlobalRemoveOutput (id : Z)
| EvPanelRedraw (a : addr)
| EvBackgroundRedraw (a : addr)
| EvPanelConfigure (a : addr) (width height : Z)
| EvBackgroundConfigure (a : addr) (width height : Z)
| EvGeometry (a : addr) (x y transform : Z)
| EvScale (a : addr) (scale : Z).

Definition step (d : Desktop) (e : Event) : option (Desktop * list Request) :=
  match e with
  | EvGlobalShell => Some (with_shell d, [])
  | EvGlobalOutput id x0 y0 junk => Some (Output_new d id x0 y0 junk)
  | EvGlobalRemoveOutput id => global_handler_remove d id
  | EvPanelRedraw a => panel_redraw d a
  | EvBackgroundRedraw a => background_redraw d a
  | EvPanelConfigure a w h =>
      match heap d !! a with
      | Some o => match o_panel o with Some p => panel_configure d p w h | None => None end
      | None => None
      end
  | EvBackgroundConfigure a w h =>
      match heap d !! a with
      | Some o => match o_background o with
                  | Some b => background_configure d b w h | None => None end
      | None => None
      end
  | EvGeometry a x y t => output_handle_geometry d a x y t
  | EvScale a s => output_handle_scale d a s
  end.

Fixpoint run (d : Desktop) (evs : list Event) : option (Desktop * list Request) :=
  match evs with
  | [] => Some (d, [])
  | e :: es =>
      match step d e with
      | None => None
      | Some (d1, r1) =>
          match run d1 es with
          | None => None
          | Some (d2, r2) => Some (d2, r1 ++ r2)
          end
      end
  end.

Definition is_ready_req (r : Request) : bool :=
  match r with ReqDesktopReady => true | _ => false end.

Definition count_ready (rs : list Request) : nat :=
  List.length (filter (fun r => is_ready_req r = true) rs).

(* ================================================================= *)
(** ** Panel layout and background drawing *)

(** Widget allocations made by [panel_resize_handler]. *)
Inductive Alloc :=
| AllocLauncher (i : nat) (x y w h : Z)
| AllocClock (x y w h : Z).

(** The launcher loop of [panel_resize_handler]; [pw], [ph] are
    [first_pad_w], [first_pad_h], reset to 0 after the first launcher. *)
Fixpoint layout_launchers (i n : nat) (horizontal : bool) (x y w h pw ph : Z)
  : list Alloc * Z * Z :=
  match n with
  | O => ([], x, y)
  | S n' =>
      let al := AllocLauncher i x y (w + pw + 1) (h + ph + 1) in
      let '(x', y') := if horizontal then (x + w + pw, y) else (x, y + h + ph) in
      let '(l, xf, yf) := layout_launchers (S i) n' horizontal x' y' w h 0 0 in
      (al :: l, xf, yf)
  end.

Definition DEFAULT_SPACING : Z := 10.

(** [panel_resize_handler]: reads [panel->position()] and
    [panel->clock_format()], the copies taken at construction. *)
Definition panel_resize_handler (p : Panel) (width height : Z) : list Alloc :=
  let w := if height >? width then width else height in
  let h := w in
  let horizontal :=
    match p_position p with POSITION_TOP | POSITION_BOTTOM => true | _ => false end in
  let first_pad_h := if horizontal then 0 else DEFAULT_SPACING / 2 in
  let first_pad_w := if horizontal then DEFAULT_SPACING / 2 else 0 in
  let '(ls, x, y) :=
    layout_launchers 0 (p_launchers p) horizontal 0 0 w h first_pad_w first_pad_h in
  let w2 := if ClockFormat_eqb (p_clock_format p) Seconds then 170 else 150 in
  let '(x2, y2, h2) :=
    if horizontal then (width - w2, y, h)
    else (x, height - DEFAULT_SPACING * 3, DEFAULT_SPACING * 3) in
  ls ++ (if p_has_clock p then [AllocClock x2 y2 (w2 + 1) (h2 + 1)] else []).

(** Cairo operations issued by [background_draw]. *)
Inductive DrawOp :=
| OpFillDefault               (* cairo_set_source_rgba(cr, 0, 0, 0.2, 1); paint *)
| OpFillColor (c : Z)         (* set_hex_color(cr, color); paint *)
| OpPattern (t : BgType).     (* image pattern laid out as [t]; cairo_mask *)

Section BackgroundDraw.
(** Whether [load_cairo_surface] returns an image for a path. *)
Variable load : string -> bool.

(** [background_draw] (drawing part). *)
Definition background_draw_ops (b : Background) : list DrawOp :=
  let fill := if b_color b =? 0 then OpFillDefault else OpFillColor (b_color b) in
  let image :=
    match b_image b with
    | Some path => load path
    | None => if b_color b =? 0 then load "pattern.png"%string else false
    end in
  fill :: (if image && negb (BgType_eqb (b_type b) Invalid)
           then [OpPattern (b_type b)] else []).
End BackgroundDraw.

(* ================================================================= *)
(** ** Lock dialog *)

Module Lock.

(** [Desktop::UnlockDialog]: [_button_focused] and [_closing]. *)
Record UnlockDialog := mkDialog { button_focused : bool; closing : bool }.

Inductive Task := UnlockTask.

Inductive LockRequest := ReqSetLockSurface | ReqUnlock.

#[global] Instance LockRequest_eq_dec : EqDecision LockRequest.
Proof. solve_decision. Defined.

(** The lock-related part of [Desktop]: [locking], [unlock_dialog],
    the toolkit's deferred-task queue and the requests sent. *)
Record LockState := mkLock {
  locking : bool;
  unlock_dialog : option UnlockDialog;
  deferred : list Task;
  sent : list LockRequest;
}.

(** Modelled from the spec: [display_defer] of the toolkit (window.c,
    not among the sources), "a defer this one-shot task primitive
    (single-thread, next-iteration semantics)": each call enqueues
    the task to run on the next loop iteration. *)
Definition display_defer (s : LockState) (t : Task) : LockState :=
  mkLock (locking s) (unlock_dialog s) (deferred s ++ [t]) (sent s).

Definition set_dialog (s : LockState) (d : option UnlockDialog) : LockState :=
  mkLock (locking s) d (deferred s) (sent s).

Definition send (s : LockState) (r : LockRequest) : LockState :=
  mkLock (locking s) (unlock_dialog s) (deferred s) (sent s ++ [r]).

Definition mark_as_closing (d : UnlockDialog) : UnlockDialog :=
  mkDialog (button_focused d) true.
Definition focus_button (d : UnlockDialog) : UnlockDialog :=
  mkDialog true (closing d).
Definition unfocus_button (d : UnlockDialog) : UnlockDialog :=
  mkDialog false (closing d).

Definition BTN_LEFT : Z := 272.

(** [unlock_dialog_button_handler]. *)
Definition unlock_dialog_button_handler (s : LockState) (button : Z) (released : bool)
  : LockState :=
  match unlock_dialog s with
  | None => s
  | Some dlg =>
      if (button =? BTN_LEFT) && released && negb (closing dlg) then
        set_dialog (display_defer s UnlockTask) (Some (mark_as_closing dlg))
      else s
  end.

(** [unlock_dialog_touch_down_handler]. *)
Definition unlock_dialog_touch_down_handler (s : LockState) : LockState :=
  match unlock_dialog s with
  | None => s
  | Some dlg => set_dialog s (Some (focus_button dlg))
  end.

(** [unlock_dialog_touch_up_handler]. *)
Definition unlock_dialog_touch_up_handler (s : LockState) : LockState :=
  match unlock_dialog s with
  | None => s
  | Some dlg =>
      set_dialog (display_defer s UnlockTask)
        (Some (mark_as_closing (unfocus_button dlg)))
  end.

(** [unlock_dialog_finish]: [delete desktop->unlock_dialog] is harmless
    on a null pointer. *)
Definition unlock_dialog_finish (s : LockState) : LockState :=
  set_dialog (send s ReqUnlock) None.

(** [desktop_shell_prepare_lock_surface]; the constructor of
    [UnlockDialog] leaves both flags unset, [f0] and [c0] are their
    initial values. *)
Definition prepare_lock_surface (s : LockState) (f0 c0 : bool) : LockState :=
  if negb (locking s) then send s ReqUnlock
  else match unlock_dialog s with
       | Some _ => s
       | None => send (set_dialog s (Some (mkDialog f0 c0))) ReqSetLockSurface
       end.

(** One loop iteration running the deferred tasks in order. *)
Fixpoint run_tasks (s : LockState) (ts : list Task) : LockState :=
  match ts with
  | [] => s
  | UnlockTask :: ts' => run_tasks (unlock_dialog_finish s) ts'
  end.

Definition dispatch_deferred (s : LockState) : LockState :=
  run_tasks (mkLock (locking s) (unlock_dialog s) [] (sent s)) (deferred s).

Inductive LockEvent :=
| LPrepareLock (f0 c0 : bool)
| LButton (button : Z) (released : bool)
| LTouchDown
| LTouchUp
| LDispatch.

Definition lstep (s : LockState) (e : LockEvent) : LockState :=
  match e with
  | LPrepareLock f0 c0 => prepare_lock_surface s f0 c0
  | LButton b r => unlock_dialog_button_handler s b r
  | LTouchDown => unlock_dialog_touch_down_handler s
  | LTouchUp => unlock_dialog_touch_up_handler s
  | LDispatch => dispatch_deferred s
  end.

Definition lrun (s : LockState) (es : list LockEvent) : LockState :=
  fold_left lstep es s.

Definition count_unlock (rs : list LockRequest) : nat :=
  List.length (filter (fun r => r = ReqUnlock) rs).

End Lock.

(* ================================================================= *)
(** ** Launcher command parsing ([panel_add_launcher]) *)

Module Launcher.

(** [isspace] in the C locale. *)
Definition isspace (c : ascii) : bool :=
  match nat_of_ascii c with
  | 32 | 9 | 10 | 11 | 12 | 13 => true
  | _ => false
  end%nat.

(** The inner scan [for (p = start; *p && !isspace( *p); p++)]: the
    token and the rest of the string from [p] on. *)
Fixpoint scan_token (s : string) : string * string :=
  match s with
  | EmptyString => (EmptyString, EmptyString)
  | String c s' =>
      if isspace c then (EmptyString, s)
      else let '(t, r) := scan_token s' in (String c t, r)
  end.

(** [eq - start] as a string: the token up to its last ['='], when it
    has one. *)
Fixpoint key_of (t : string) : option string :=
  match t with
  | EmptyString => None
  | String c t' =>
      match key_of t' with
      | Some k => Some (String c k)
      | None => if Ascii.eqb c "=" then Some EmptyString else None
      end
  end.

(** [while ( *p && isspace( *p)) *p++ = '\0';] *)
Fixpoint skip_space (s : string) : string :=
  match s with
  | String c s' => if isspace c then skip_space s' else s
  | EmptyString => EmptyString
  end.

(** The replace-or-append loop over [envp]: [strncmp(ps[k], start,
    eq - start) == 0] holds exactly when [ps[k]] begins with [key]. *)
Fixpoint env_override (key tok : string) (envp : list string) : list string :=
  match envp with
  | [] => [tok]
  | e :: es => if String.prefix key e then tok :: es
               else e :: env_override key tok es
  end.

(** The [while ( *start)] loop; [j] is the number of arguments so far
    and [fuel] bounds the iterations (each consumes a character). *)
Fixpoint parse_loop (fuel : nat) (start : string) (envp argv : list string) (j : nat)
  : list string * list string :=
  match fuel with
  | O => (envp, argv)
  | S fuel' =>
      match start with
      | EmptyString => (envp, argv)
      | _ =>
          let '(tok, p) := scan_token start in
          match key_of tok with
          | Some key =>
              if (j =? 0)%nat
              then parse_loop fuel' (skip_space p) (env_override key tok envp) argv j
              else parse_loop fuel' (skip_space p) envp (argv ++ [tok]) (S j)
          | None => parse_loop fuel' (skip_space p) envp (argv ++ [tok]) (S j)
          end
      end
  end.

(** [panel_add_launcher]: [envp] starts as a copy of [environ]; the
    result is [(envp, argv)] without the closing NULL entries. *)
Definition panel_add_launcher (environ : list string) (path : string)
  : list string * list string :=
  parse_loop (String.length path) path environ [] 0.

End Launcher.

(* ================================================================= *)
(** ** Panel position, clock, colours and the startup pass *)

(** [Desktop::parse_panel_position]: the [panel-position] key read with
    default ["top"]; [old] is the previous [panel_position], which the
    last branch leaves as it is.  The result is [want_panel], the new
    [panel_position] and the lines printed on stderr. *)
Definition parse_panel_position (v : option string) (old : PanelPosition)
  : bool * PanelPosition * list string :=
  let position := default "top"%string v in
  if String.eqb position "top" then (true, POSITION_TOP, [])
  else if String.eqb position "bottom" then (true, POSITION_BOTTOM, [])
  else if String.eqb position "left" then (true, POSITION_LEFT, [])
  else if String.eqb position "right" then (true, POSITION_RIGHT, [])
  else (false, old,
        if String.eqb position "none"
        then ["Wrong panel position: none"%string] else []).

(** The [switch] of [Panel::add_clock]: the clock's [_format_string] and
    [_refresh_timer]; [None] is the failed [assert(!"not reached")]. *)
Definition add_clock (cf : ClockFormat) : option (string * Z) :=
  match cf with
  | Iso => Some ("%Y-%m-%dT%H:%M:%S"%string, 1)
  | Minutes => Some ("%a %b %d, %I:%M %p"%string, 60)
  | Seconds => Some ("%a %b %d, %I:%M:%S %p"%string, 1)
  | Minutes24h => Some ("%a %b %d, %H:%M"%string, 60)
  | Seconds24h => Some ("%a %b %d, %H:%M:%S"%string, 1)
  | None_ => None
  end.

(** Whether a strftime format contains the seconds conversion [%S]. *)
Definition shows_seconds (fmt : string) : bool :=
  match String.index 0 "%S" fmt with Some _ => true | None => false end.

(** [Panel::Clock::timer_reset]: the first expiry [its.it_value] in
    nanoseconds, for a [CLOCK_REALTIME] reading whose nanosecond field is
    [tv_nsec] and whose local-time seconds field is [tm_sec].  The value
    is [refresh - tm_sec % refresh] seconds and 10 ms, to which
    [timespec_add_nsec] adds [-tv_nsec] (its normalisation of the pair
    keeps the total). *)
Definition timer_reset_value (refresh tm_sec tv_nsec : Z) : Z :=
  (refresh - tm_sec mod refresh) * 1000000000 + 10000000 + (- tv_nsec).

(** The channels computed by [set_hex_color] for a [uint32_t] colour,
    before the division by 255.0: red, green, blue, alpha. *)
Definition hex_channels (color : Z) : Z * Z * Z * Z :=
  (Z.land (Z.shiftr color 16) 255, Z.land (Z.shiftr color 8) 255,
   Z.land (Z.shiftr color 0) 255, Z.land (Z.shiftr color 24) 255).

(** [clock_func] for the timer of the clock of the panel held by the
    Output at [t].  The loop evaluates [output->panel()->clock()] for
    every Output it visits, with no check that the panel exists.  [None]
    is a fault: a deleted Output or a null panel dereferenced, or the
    [assert(clock != nullptr)] failing.  [Some a] schedules the redraw
    of the clock of the panel of [a].  For a panel without a clock the
    loop compares [&nullptr->timer()], which is no live timer. *)
Fixpoint clock_func_from (h : gmap addr Output) (l : list addr) (t : addr)
  : option addr :=
  match l with
  | [] => None
  | a :: l' =>
      match h !! a with
      | None => None
      | Some o =>
          match o_panel o with
          | None => None
          | Some p => if p_has_clock p && (a =? t)%nat then Some a
                      else clock_func_from h l' t
          end
      end
  end.

Definition clock_func (d : Desktop) (t : addr) : option addr :=
  clock_func_from (heap d) (outputs d) t.

(** The loop of [main] after [display_set_global_handler]:
    [if (!output->panel()) output->init();] for every Output of the
    collection; [junk a] is the initial [_painted] of a panel created
    for the Output at [a]. *)
Fixpoint init_pending (d : Desktop) (l : list addr) (junk : addr -> bool)
  : option (Desktop * list Request) :=
  match l with
  | [] => Some (d, [])
  | a :: l' =>
      match heap d !! a with
      | None => None
      | Some o =>
          match o_panel o with
          | Some _ => init_pending d l' junk
          | None =>
              let '(o', r1) := Output_init d a o (junk a) in
              match init_pending (with_heap d (<[a := o']> (heap d))) l' junk with
              | None => None
              | Some (d2, r2) => Some (d2, r1 ++ r2)
              end
          end
      end
  end.

Definition main_init_pending (d : Desktop) (junk : addr -> bool)
  : option (Desktop * list Request) :=
  init_pending d (outputs d) junk.

(** The panel and the background of an Output, where present, have
    been painted. *)
Definition surfaces_painted (o : Output) : Prop :=
  (forall p, o_panel o = Some p -> p_painted p = true) /\
  (forall b, o_background o = Some b -> b_painted b = true).

(** Every panel and background names, as its owner, the Output that
    holds it. *)
Definition owners_consistent (h : gmap addr Output) : Prop :=
  forall a o, h !! a = Some o ->
    (forall p, o_panel o = Some p -> p_owner p = a) /\
    (forall b, o_background o = Some b -> b_owner b = a).

(* ================================================================= *)
(** * Properties *)

(* ----------------------------------------------------------------- *)
(** ** Configuration parsing *)

(** C10: [parse_clock_format] maps "minutes", "seconds", "minutes-24h",
    "seconds-24h" and "none" to their formats and every other string,
    including the empty default used when the key is absent, to [Iso];
    it never logs. *)
Theorem parse_clock_format_table :
  parse_clock_format (Some "minutes"%string) = (Minutes, []) /\
  parse_clock_format (Some "seconds"%string) = (Seconds, []) /\
  parse_clock_format (Some "minutes-24h"%string) = (Minutes24h, []) /\
  parse_clock_format (Some "seconds-24h"%string) = (Seconds24h, []) /\
  parse_clock_format (Some "none"%string) = (None_, []) /\
  parse_clock_format None = (Iso, []) /\
  (forall s : string,
      s <> "minutes"%string -> s <> "seconds"%string ->
      s <> "minutes-24h"%string -> s <> "seconds-24h"%string ->
      s <> "none"%string ->
      parse_clock_format (Some s) = (Iso, [])) /\
  (forall v, snd (parse_clock_format v) = []).
Proof.
  repeat split; try reflexivity.
  - intros s H1 H2 H3 H4 H5. unfold parse_clock_format; simpl.
    repeat match goal with
           | |- context [String.eqb s ?t] =>
               destruct (String.eqb_spec s t); [congruence |]
           end.
    reflexivity.
  - intros v. unfold parse_clock_format.
    repeat (case_match; try reflexivity).
Qed.

Lemma parse_clock_format_table_witness :
  parse_clock_format (Some "minute"%string) = (Iso, []).
Proof.
  apply (proj1 (proj2 (proj2 (proj2 (proj2 (proj2 (proj2 parse_clock_format_table)))))));
    discriminate.
Defined.

(** C9 (as the code has it): a [background-type] value other than
    "scale", "scale-crop", "tile" and "centered" is logged and gives the
    type [Invalid], not [Tile]: the background then paints only its fill
    colour, with no image, even when an image is configured and loads. *)
Lemma background_unknown_type_not_tile :
  let d := mkDesktop true [] ∅ 0 true POSITION_TOP Minutes false 0
             (Some "wall.png"%string) 0 "stretch" in
  parse_background_type "stretch" =
    (Invalid, ["invalid background-type: stretch"%string]) /\
  b_type (background_create d 0) = Invalid /\
  background_draw_ops (fun _ => true) (background_create d 0) = [OpFillDefault] /\
  background_draw_ops (fun _ => true)
    (mkBackground 0 false (Some "wall.png"%string) Tile 0)
    = [OpFillDefault; OpPattern Tile].
Proof. repeat split; reflexivity. Qed.

(** C9 (amended): an unrecognised [background-type] is logged and makes
    the type [Invalid]; [background_draw] then paints only the fill
    colour (default or configured), never an image, and nothing fails. *)
Theorem background_unknown_type_fill_only (type : string)
  (H1 : type <> "scale"%string) (H2 : type <> "scale-crop"%string)
  (H3 : type <> "tile"%string) (H4 : type <> "centered"%string) :
  parse_background_type type =
    (Invalid, [("invalid background-type: " ++ type)%string]) /\
  forall (load : string -> bool) (d : Desktop) (a : addr),
    cfg_bg_type d = type ->
    b_type (background_create d a) = Invalid /\
    background_draw_ops load (background_create d a) =
      [if cfg_bg_color d =? 0 then OpFillDefault else OpFillColor (cfg_bg_color d)].
Proof.
  assert (Hp : parse_background_type type =
    (Invalid, [("invalid background-type: " ++ type)%string])).
  { unfold parse_background_type.
    destruct (String.eqb_spec type "scale"); [congruence |].
    destruct (String.eqb_spec type "scale-crop"); [congruence |].
    destruct (String.eqb_spec type "tile"); [congruence |].
    destruct (String.eqb_spec type "centered"); [congruence |].
    reflexivity. }
  split; [exact Hp |].
  intros load d a Hd.
  unfold background_create. rewrite Hd, Hp. simpl.
  split; [reflexivity |].
  unfold background_draw_ops; simpl.
  destruct (cfg_bg_image d), (cfg_bg_color d =? 0); simpl;
    rewrite ?andb_false_r; reflexivity.
Qed.

Lemma background_unknown_type_fill_only_witness :
  parse_background_type "stretch" =
    (Invalid, ["invalid background-type: stretch"%string]).
Proof.
  apply (proj1 (background_unknown_type_fill_only "stretch"
                  ltac:(discriminate) ltac:(discriminate)
                  ltac:(discriminate) ltac:(discriminate))).
Defined.

(* ----------------------------------------------------------------- *)
(** ** Panel configure sizing *)

(** A desktop with the given policy and one panel owned by address 0. *)
Definition policy_desktop (pos : PanelPosition) (cf : ClockFormat) : Desktop :=
  mkDesktop true [] ∅ 0 true pos cf false 0 None 0 "tile".

Definition sample_panel (pos : PanelPosition) (cf : ClockFormat) : Panel :=
  mkPanel 0 false pos cf (negb (ClockFormat_eqb cf None_)) 1.

(** C6 (as the code has it): for a left panel with the second-granularity
    format "seconds-24h", [panel_configure] asks for width 150, not 170. *)
Lemma panel_configure_seconds24h_medium :
  panel_configure (policy_desktop POSITION_LEFT Seconds24h)
    (sample_panel POSITION_LEFT Seconds24h) 100 500 =
    Some (policy_desktop POSITION_LEFT Seconds24h, [ReqWindowResize 0 150 500]) /\
  panel_configure (policy_desktop POSITION_LEFT Seconds24h)
    (sample_panel POSITION_LEFT Seconds24h) 100 500 <>
    Some (policy_desktop POSITION_LEFT Seconds24h, [ReqWindowResize 0 170 500]).
Proof. split; [reflexivity | discriminate]. Qed.

(** C6 (amended): for a proposal of at least 1x1, [panel_configure]
    sends one resize request; for a top or bottom position the height is
    32 and the width is the proposal; for left or right the height is the
    proposal and the width is 32 for "none"/ISO, 150 for "minutes",
    "minutes-24h" and "seconds-24h", and 170 for "seconds" only. *)
Theorem panel_configure_sizes (d : Desktop) (p : Panel) (width height : Z)
  (Hw : 1 <= width) (Hh : 1 <= height) :
  ((panel_position d = POSITION_TOP \/ panel_position d = POSITION_BOTTOM) ->
   panel_configure d p width height =
     Some (d, [ReqWindowResize (p_owner p) width 32])) /\
  ((panel_position d = POSITION_LEFT \/ panel_position d = POSITION_RIGHT) ->
   (clock_format d = Seconds ->
      panel_configure d p width height =
        Some (d, [ReqWindowResize (p_owner p) 170 height])) /\
   ((clock_format d = Minutes \/ clock_format d = Minutes24h \/
     clock_format d = Seconds24h) ->
      panel_configure d p width height =
        Some (d, [ReqWindowResize (p_owner p) 150 height])) /\
   ((clock_format d = None_ \/ clock_format d = Iso) ->
      panel_configure d p width height =
        Some (d, [ReqWindowResize (p_owner p) 32 height]))).
Proof.
  assert (Hn : (width <? 1) || (height <? 1) = false).
  { apply orb_false_iff; split; apply Z.ltb_ge; lia. }
  unfold panel_configure; rewrite Hn.
  split.
  - intros [Hp | Hp]; rewrite Hp; reflexivity.
  - intros [Hp | Hp]; rewrite Hp; simpl;
      repeat split; intros Hc;
      repeat (destruct Hc as [Hc | Hc]); rewrite Hc; reflexivity.
Qed.

Lemma panel_configure_sizes_witness :
  panel_configure (policy_desktop POSITION_RIGHT Seconds)
    (sample_panel POSITION_RIGHT Seconds) 80 700 =
    Some (policy_desktop POSITION_RIGHT Seconds, [ReqWindowResize 0 170 700]).
Proof.
  apply (panel_configure_sizes (policy_desktop POSITION_RIGHT Seconds)
           (sample_panel POSITION_RIGHT Seconds) 80 700 ltac:(lia) ltac:(lia)).
  - right; reflexivity.
  - reflexivity.
Defined.

(** Every Panel in the heap carries the Desktop's current policy. *)
Definition policy_agrees (d : Desktop) : Prop :=
  forall (a : addr) (o : Output) (p : Panel),
    heap d !! a = Some o -> o_panel o = Some p ->
    p_position p = panel_position d /\ p_clock_format p = clock_format d.

(** Where a Panel found after a step comes from: a Panel of the previous
    heap (possibly moved or marked painted) or a new one built from the
    Desktop's policy. *)
Definition panel_from (d : Desktop) (p' : Panel) : Prop :=
  (exists (a : addr) (o : Output) (p : Panel),
      heap d !! a = Some o /\ o_panel o = Some p /\
      p_position p' = p_position p /\ p_clock_format p' = p_clock_format p) \/
  (p_position p' = panel_position d /\ p_clock_format p' = clock_format d).

Ltac lookup_cases H :=
  repeat match type of H with
  | <[_ := _]> _ !! _ = Some _ =>
      apply lookup_insert_Some in H; destruct H as [[? ?] | [? H]]
  | delete _ _ !! _ = Some _ =>
      apply lookup_delete_Some in H; destruct H as [? H]
  end.

Lemma check_desktop_ready_heap (d d' : Desktop) (rs : list Request) :
  check_desktop_ready d = Some (d', rs) ->
  heap d' = heap d /\ panel_position d' = panel_position d /\
  clock_format d' = clock_format d /\ outputs d' = outputs d /\
  Nat.b2n (painted d') = (Nat.b2n (painted d) + count_ready rs)%nat.
Proof.
  unfold check_desktop_ready.
  destruct (painted d) eqn:Hp.
  - intros [= <- <-]. rewrite Hp. auto.
  - destruct (is_painted d) as [[|]|]; intros H; inversion H; subst; simpl;
      rewrite ?Hp; auto.
Qed.

Lemma hand_over_panel (r : addr) (rep o : Output) :
  o_panel (fst (hand_over r rep o)) = o_panel rep \/
  o_panel (fst (hand_over r rep o)) = option_map (fun p => panel_set_owner p r) (o_panel o).
Proof.
  unfold hand_over.
  destruct (o_background rep); simpl;
    destruct (o_panel rep) eqn:E; simpl; rewrite ?E; auto.
Qed.

Lemma step_policy (d d' : Desktop) (e : Event) (rs : list Request) :
  step d e = Some (d', rs) ->
  panel_position d' = panel_position d /\ clock_format d' = clock_format d.
Proof.
  destruct e; simpl; intros H.
  - inversion H; auto.
  - unfold Output_new in H.
    destruct (if shell d then _ else _); inversion H; auto.
  - unfold global_handler_remove, remove_output in H.
    repeat (case_match; simplify_eq; try discriminate); simpl; auto.
  - unfold panel_redraw in H.
    repeat (case_match; try discriminate).
    apply check_desktop_ready_heap in H. simpl in H. tauto.
  - unfold background_redraw in H.
    repeat (case_match; try discriminate).
    apply check_desktop_ready_heap in H. simpl in H. tauto.
  - unfold panel_configure in H.
    repeat (case_match; simplify_eq; try discriminate); simpl; auto.
  - unfold background_configure in H.
    repeat (case_match; simplify_eq; try discriminate); simpl; auto.
  - unfold output_handle_geometry in H.
    repeat (case_match; simplify_eq; try discriminate); simpl; auto.
  - unfold output_handle_scale in H.
    repeat (case_match; simplify_eq; try discriminate); simpl; auto.
Qed.

Lemma step_panel_from (d d' : Desktop) (e : Event) (rs : list Request)
  (a' : addr) (o' : Output) (p' : Panel) :
  step d e = Some (d', rs) -> heap d' !! a' = Some o' -> o_panel o' = Some p' ->
  panel_from d p'.
Proof.
  intros Hs Hl Hp.
  assert (Old : forall a o p, heap d !! a = Some o -> o_panel o = Some p ->
                p_position p' = p_position p -> p_clock_format p' = p_clock_format p ->
                panel_from d p')
    by (intros a o p ? ? ? ?; left; exists a, o, p; auto).
  destruct e; simpl in Hs.
  - inversion Hs; subst; simpl in *. eauto.
  - unfold Output_new, Output_init in Hs.
    destruct (shell d), (want_panel d); inversion Hs; subst; simpl in *;
      lookup_cases Hl; subst; simpl in *; try discriminate; eauto.
    inversion Hp; subst. right; auto.
  - unfold global_handler_remove, remove_output in Hs.
    repeat (case_match; simplify_eq; try discriminate); simpl in *;
      lookup_cases Hl; subst; eauto.
    match goal with
    | E : hand_over ?r ?rp ?oo = _ |- _ =>
        let Hh := fresh "Hh" in
        destruct (hand_over_panel r rp oo) as [Hh | Hh]; rewrite E in Hh; simpl in Hh;
        [ rewrite Hh in Hp; eauto
        | rewrite Hp in Hh; destruct (o_panel oo) as [p|] eqn:Ep; simpl in Hh;
          inversion Hh; subst;
          eapply (Old _ _ p); [| exact Ep | reflexivity | reflexivity]; eassumption ]
    end.
  - unfold panel_redraw in Hs.
    repeat (case_match; try discriminate).
    apply check_desktop_ready_heap in Hs as (Hh & _). rewrite Hh in Hl. simpl in Hl.
    lookup_cases Hl; subst; simpl in *; eauto.
    inversion Hp; subst. eapply Old; [| eassumption | reflexivity | reflexivity]; eassumption.
  - unfold background_redraw in Hs.
    repeat (case_match; try discriminate).
    apply check_desktop_ready_heap in Hs as (Hh & _). rewrite Hh in Hl. simpl in Hl.
    lookup_cases Hl; subst; simpl in *; eauto.
  - unfold panel_configure in Hs.
    repeat (case_match; simplify_eq; try discriminate); simpl in *;
      lookup_cases Hl; subst; simpl in *; try discriminate; eauto.
  - unfold background_configure in Hs.
    repeat (case_match; simplify_eq; try discriminate); simpl in *;
      lookup_cases Hl; subst; simpl in *; try discriminate; eauto.
  - unfold output_handle_geometry in Hs.
    repeat (case_match; simplify_eq; try discriminate); simpl in *;
      lookup_cases Hl; subst; simpl in *; eauto.
  - unfold output_handle_scale in Hs.
    repeat (case_match; simplify_eq; try discriminate); simpl in *; eauto.
Qed.

Lemma step_policy_agrees (d d' : Desktop) (e : Event) (rs : list Request) :
  policy_agrees d -> step d e = Some (d', rs) -> policy_agrees d'.
Proof.
  intros Hag Hs a o p Hl Hp.
  destruct (step_policy d d' e rs Hs) as [Epos Ecf].
  rewrite Epos, Ecf.
  destruct (step_panel_from d d' e rs a o p Hs Hl Hp)
    as [(a0 & o0 & p0 & H1 & H2 & H3 & H4) | [H3 H4]].
  - rewrite H3, H4. eapply Hag; eassumption.
  - auto.
Qed.

Lemma run_policy (d : Desktop) (evs : list Event) (d' : Desktop) (rs : list Request) :
  policy_agrees d -> run d evs = Some (d', rs) ->
  panel_position d' = panel_position d /\ clock_format d' = clock_format d /\
  policy_agrees d'.
Proof.
  revert d rs. induction evs as [|e es IH]; intros d rs Hag Hr; simpl in Hr.
  - inversion Hr; subst. auto.
  - destruct (step d e) as [[d1 r1]|] eqn:Hs; [|discriminate].
    destruct (run d1 es) as [[d2 r2]|] eqn:Hr2; [|discriminate].
    inversion Hr; subst.
    destruct (step_policy d d1 e r1 Hs) as [E1 E2].
    destruct (IH d1 r2 (step_policy_agrees d d1 e r1 Hag Hs) Hr2) as (F1 & F2 & F3).
    rewrite F1, F2, E1, E2. auto.
Qed.

(** C8: the launcher/clock layout of [panel_resize_handler] depends
    only on the Panel's captured position and clock format (and its
    launcher count and clock).  [panel_configure] reads the Desktop's
    global position and clock format, but no event handler changes that
    policy after [main] sets it, so along any run every Panel's captured
    copies keep agreeing with it; hence in every state the event loop
    reaches, the configure size of every Panel held by an Output is the
    one its captured position and clock format give. *)
Theorem panel_policy_captured :
  (forall (p q : Panel) (width height : Z),
      p_position p = p_position q -> p_clock_format p = p_clock_format q ->
      p_has_clock p = p_has_clock q -> p_launchers p = p_launchers q ->
      panel_resize_handler p width height = panel_resize_handler q width height) /\
  (forall (d : Desktop) (p : Panel) (width height : Z),
      1 <= width -> 1 <= height ->
      panel_configure d p width height =
        Some (d, [ReqWindowResize (p_owner p)
                   (fst (panel_configure_size (panel_position d) (clock_format d) width height))
                   (snd (panel_configure_size (panel_position d) (clock_format d) width height))])) /\
  (forall (d : Desktop) (evs : list Event) (d' : Desktop) (rs : list Request),
      policy_agrees d -> run d evs = Some (d', rs) ->
      panel_position d' = panel_position d /\ clock_format d' = clock_format d /\
      policy_agrees d') /\
  (forall (d : Desktop) (evs : list Event) (d' : Desktop) (rs : list Request)
          (a : addr) (o : Output) (p : Panel) (width height : Z),
      policy_agrees d -> run d evs = Some (d', rs) ->
      heap d' !! a = Some o -> o_panel o = Some p ->
      1 <= width -> 1 <= height ->
      panel_configure d' p width height =
        Some (d', [ReqWindowResize (p_owner p)
                    (fst (panel_configure_size (p_position p) (p_clock_format p) width height))
                    (snd (panel_configure_size (p_position p) (p_clock_format p) width height))])).
Proof.
  split; [| split; [| split]].
  - intros p q width height H1 H2 H3 H4.
    unfold panel_resize_handler. rewrite H1, H2, H3, H4. reflexivity.
  - intros d p width height Hw Hh.
    assert (Hn : (width <? 1) || (height <? 1) = false).
    { apply orb_false_iff; split; apply Z.ltb_ge; lia. }
    unfold panel_configure; rewrite Hn.
    destruct (panel_configure_size _ _ _ _); reflexivity.
  - exact run_policy.
  - intros d evs d' rs a o p width height Hag Hr Ho Hp Hw Hh.
    destruct (run_policy d evs d' rs Hag Hr) as (_ & _ & Hag').
    destruct (Hag' a o p Ho Hp) as [Epos Ecf].
    assert (Hn : (width <? 1) || (height <? 1) = false).
    { apply orb_false_iff; split; apply Z.ltb_ge; lia. }
    unfold panel_configure; rewrite Hn, Epos, Ecf.
    destruct (panel_configure_size _ _ _ _); reflexivity.
Qed.

(** Along a run from a left/seconds desktop the policy stays in place,
    and the Panel built for the Output is configured from its own
    captured left/seconds policy: 170 wide. *)
Lemma panel_policy_captured_witness :
  match run (policy_desktop POSITION_LEFT Seconds)
          [EvGlobalOutput 1 0 0 false; EvPanelConfigure 0 1920 1080] with
  | Some (d', _) =>
      panel_position d' = POSITION_LEFT /\ clock_format d' = Seconds /\ policy_agrees d'
  | None => False
  end /\
  match run (policy_desktop POSITION_LEFT Seconds) [EvGlobalOutput 1 0 0 false] with
  | Some (d', _) =>
      match heap d' !! 0%nat with
      | Some o =>
          match o_panel o with
          | Some p => panel_configure d' p 1920 1080 = Some (d', [ReqWindowResize 0 170 1080])
          | None => False
          end
      | None => False
      end
  | None => False
  end.
Proof.
  assert (H0 : policy_agrees (policy_desktop POSITION_LEFT Seconds))
    by (intros a' o' p' H'; vm_compute in H'; discriminate).
  split.
  - destruct (run (policy_desktop POSITION_LEFT Seconds) _) as [[d' rs]|] eqn:E;
      [| vm_compute in E; discriminate].
    exact ((proj1 (proj2 (proj2 panel_policy_captured)))
             (policy_desktop POSITION_LEFT Seconds) _ d' rs H0 E).
  - destruct (run (policy_desktop POSITION_LEFT Seconds) _) as [[d' rs]|] eqn:E;
      [| vm_compute in E; discriminate].
    destruct (heap d' !! 0%nat) as [o|] eqn:Ho;
      [| vm_compute in E; injection E as <- _; vm_compute in Ho; discriminate].
    destruct (o_panel o) as [p|] eqn:Hp;
      [| vm_compute in E; injection E as <- _; vm_compute in Ho; injection Ho as <-;
         vm_compute in Hp; discriminate].
    rewrite ((proj2 (proj2 (proj2 panel_policy_captured)))
               (policy_desktop POSITION_LEFT Seconds) _ d' rs 0%nat o p 1920 1080
               H0 E Ho Hp ltac:(lia) ltac:(lia)).
    vm_compute in E; injection E as <- _; vm_compute in Ho; injection Ho as <-;
      vm_compute in Hp; injection Hp as <-.
    reflexivity.
Defined.

(* ----------------------------------------------------------------- *)
(** ** Readiness barrier *)

Lemma count_ready_app (r1 r2 : list Request) :
  count_ready (r1 ++ r2) = (count_ready r1 + count_ready r2)%nat.
Proof. unfold count_ready. rewrite filter_app, length_app. reflexivity. Qed.

Lemma Output_destroy_reqs_ready (o : Output) (rs : list Request) :
  Output_destroy_reqs o = Some rs -> count_ready rs = 0%nat.
Proof.
  unfold Output_destroy_reqs, panel_destroy.
  destruct (o_background o), (o_panel o) as [p|];
    repeat (case_match; simplify_eq; try discriminate); intros Hs; simplify_eq;
    reflexivity.
Qed.

(** Only [check_desktop_ready] sends the notification, and it sends it
    exactly when it flips [painted] from false to true. *)
Lemma step_ready_count (d d' : Desktop) (e : Event) (rs : list Request) :
  step d e = Some (d', rs) ->
  Nat.b2n (painted d') = (Nat.b2n (painted d) + count_ready rs)%nat.
Proof.
  destruct e; simpl; intros H.
  - inversion H; subst. unfold count_ready; simpl. lia.
  - unfold Output_new, Output_init in H.
    destruct (shell d), (want_panel d); inversion H; subst;
      unfold count_ready; simpl; lia.
  - unfold global_handler_remove, remove_output in H.
    repeat (case_match; simplify_eq; try discriminate); simpl;
      first [erewrite Output_destroy_reqs_ready by eassumption; lia
            | unfold count_ready; simpl; lia].
  - unfold panel_redraw in H.
    repeat (case_match; try discriminate).
    apply check_desktop_ready_heap in H as (_ & _ & _ & _ & H). exact H.
  - unfold background_redraw in H.
    repeat (case_match; try discriminate).
    apply check_desktop_ready_heap in H as (_ & _ & _ & _ & H). exact H.
  - unfold panel_configure, panel_destroy in H.
    repeat (case_match; simplify_eq; try discriminate); simpl;
      unfold count_ready; simpl; lia.
  - unfold background_configure in H.
    repeat (case_match; simplify_eq; try discriminate); simpl;
      unfold count_ready; simpl; lia.
  - unfold output_handle_geometry in H.
    repeat (case_match; simplify_eq; try discriminate); simpl;
      unfold count_ready; simpl; lia.
  - unfold output_handle_scale in H.
    repeat (case_match; simplify_eq; try discriminate); simpl;
      unfold count_ready; simpl; lia.
Qed.

Lemma run_ready_count (d : Desktop) (evs : list Event) (d' : Desktop) (rs : list Request) :
  run d evs = Some (d', rs) ->
  Nat.b2n (painted d') = (Nat.b2n (painted d) + count_ready rs)%nat.
Proof.
  revert d rs. induction evs as [|e es IH]; intros d rs Hr; simpl in Hr.
  - inversion Hr; subst. unfold count_ready; simpl. lia.
  - destruct (step d e) as [[d1 r1]|] eqn:Hs; [|discriminate].
    destruct (run d1 es) as [[d2 r2]|] eqn:Hr2; [|discriminate].
    inversion Hr; subst.
    rewrite count_ready_app.
    rewrite (IH d1 r2 Hr2), (step_ready_count d d1 e r1 Hs). lia.
Qed.

(** The barrier fires at most once along any run of events, and never
    once [painted] is already set. *)
Lemma ready_at_most_once (d : Desktop) (evs : list Event) (d' : Desktop) (rs : list Request) :
  run d evs = Some (d', rs) ->
  (count_ready rs <= 1)%nat /\ (painted d = true -> count_ready rs = 0%nat).
Proof.
  intros Hr. pose proof (run_ready_count d evs d' rs Hr) as E.
  destruct (painted d), (painted d'); simpl in E; split; intros; lia.
Qed.

(** A desktop with the shell bound, panels wanted and no output yet. *)
Definition startup_desktop : Desktop :=
  mkDesktop true [] ∅ 0 true POSITION_TOP Minutes false 0 None 0 "tile".

(** C1: [Panel::Panel] never initialises [_painted].  With an Output
    whose new Panel happens to hold a non-zero [_painted], the first
    paint of the Background alone sends "desktop ready", although the
    Panel has not been painted. *)
Theorem ready_before_panel_paint :
  exists (d' : Desktop) (o : Output) (p : Panel),
    run startup_desktop [EvGlobalOutput 1 0 0 true; EvBackgroundRedraw 0] =
      Some (d', [ReqSetPanel 0; ReqSetBackground 0; ReqDesktopReady]) /\
    heap d' !! 0%nat = Some o /\ o_panel o = Some p /\ painted d' = true.
Proof.
  eexists _, _, _. split; [vm_compute; reflexivity |].
  split; [vm_compute; reflexivity |]. split; reflexivity.
Qed.

(* ----------------------------------------------------------------- *)
(** ** The outputs collection *)



(* ----------------------------------------------------------------- *)
(** ** Lock dialog *)

(** C3: a left-button release followed by a touch-up before the deferred
    task runs queues the finalize task twice (the touch-up handler does
    not test the closing flag); the next loop iteration then runs it
    twice and asks the compositor to unlock twice. *)
Theorem lock_dialog_double_dismissal :
  let s0 := Lock.mkLock true None [] [] in
  let s1 := Lock.lrun s0 [Lock.LPrepareLock false false; Lock.LButton Lock.BTN_LEFT true] in
  let s2 := Lock.lrun s1 [Lock.LTouchUp] in
  Lock.deferred s1 = [Lock.UnlockTask] /\
  option_map Lock.closing (Lock.unlock_dialog s1) = Some true /\
  Lock.deferred s2 = [Lock.UnlockTask; Lock.UnlockTask] /\
  Lock.count_unlock (Lock.sent (Lock.lrun s2 [Lock.LDispatch])) = 2%nat.
Proof. vm_compute. repeat split; reflexivity. Qed.

(* ----------------------------------------------------------------- *)
(** ** Launcher command parsing *)

(** C4: the environment override "A=1" replaces the first inherited
    entry that merely begins with "A" ("AB=x"), so the example of the
    spec loses the inherited variable AB. *)
Theorem launcher_prefix_override :
  Launcher.panel_add_launcher ["AB=x"; "HOME=/root"]%string
    "A=1 B=2 /bin/x --y"%string =
    (["A=1"; "HOME=/root"; "B=2"]%string, ["/bin/x"; "--y"]%string) /\
  ("AB=x"%string ∉ fst (Launcher.panel_add_launcher ["AB=x"; "HOME=/root"]%string
                         "A=1 B=2 /bin/x --y"%string)) /\
  Launcher.panel_add_launcher ["HOME=/root"]%string "/bin/x A=1"%string =
    (["HOME=/root"]%string, ["/bin/x"; "A=1"]%string).
Proof.
  split; [reflexivity |]. split; [| reflexivity].
  vm_compute. intros H. repeat (apply elem_of_cons in H as [H | H]; [discriminate |]).
  apply elem_of_nil in H. exact H.
Qed.

(* ----------------------------------------------------------------- *)
(** ** Zero-size configure *)

(** Every Panel built by [Panel::Panel] has a launcher: [add_launchers]
    adds the default one when the configuration names none. *)
Lemma Panel_new_launchers (d : Desktop) (a : addr) (junk : bool) :
  p_launchers (Panel_new d a junk) <> 0%nat.
Proof. unfold Panel_new; simpl. case_match; [lia |]. apply Nat.eqb_neq. assumption. Qed.

Lemma panel_destroy_launchers (p : Panel) :
  p_launchers p <> 0%nat -> panel_destroy p = None.
Proof. intros H. unfold panel_destroy. apply Nat.eqb_neq in H. rewrite H. reflexivity. Qed.

(** An initialised desktop with one Output at address 0. *)
Definition one_output_desktop : Desktop :=
  fst (Output_new startup_desktop 1 0 0 false).

(** C5: a configure proposing a width or height below 1 for the
    Background of an Output destroys it and clears the Output's
    reference, with no resize request; later geometry and scale events
    for that Output only touch the Panel.  For a Panel the same branch
    runs [delete panel] first, which faults for every Panel with a
    launcher, and every Panel the program builds has one: the Panel's
    zero-size configure crashes, e.g. right after the first Output is
    announced. *)
Theorem zero_configure_panel_fault :
  (forall (d : Desktop) (p : Panel) (width height : Z),
     width < 1 \/ height < 1 -> p_launchers p <> 0%nat ->
     panel_configure d p width height = None) /\
  (forall (d : Desktop) (a : addr) (junk : bool), p_launchers (Panel_new d a junk) <> 0%nat) /\
  (forall (d : Desktop) (a : addr) (o : Output) (b : Background) (width height : Z),
     heap d !! a = Some o -> width < 1 \/ height < 1 ->
     o_background o = Some b -> b_owner b = a ->
     let d' := with_heap d (<[a := set_background o None]> (heap d)) in
     background_configure d b width height = Some (d', [ReqDestroyBackground b]) /\
     heap d' !! a = Some (set_background o None) /\
     (forall x y t : Z, exists d'' : Desktop,
        output_handle_geometry d' a x y t =
          Some (d'', match o_panel o with
                     | Some _ => [ReqTransform SPanel a t] | None => [] end)) /\
     (forall s : Z,
        output_handle_scale d' a s =
          Some (d', match o_panel o with
                    | Some _ => [ReqScale SPanel a s] | None => [] end))) /\
  run startup_desktop [EvGlobalOutput 1 0 0 false] <> None /\
  run startup_desktop [EvGlobalOutput 1 0 0 false; EvPanelConfigure 0 0 0] = None /\
  run startup_desktop [EvGlobalOutput 1 0 0 false; EvBackgroundConfigure 0 0 0;
                       EvGeometry 0 3 4 0; EvScale 0 2] <> None.
Proof.
  split; [| split; [| split]].
  - intros d p width height Hz Hl.
    assert (Hn : (width <? 1) || (height <? 1) = true).
    { apply orb_true_iff. destruct Hz; [left | right]; apply Z.ltb_lt; lia. }
    unfold panel_configure. rewrite Hn, (panel_destroy_launchers p Hl).
    destruct (heap d !! p_owner p); reflexivity.
  - exact Panel_new_launchers.
  - intros d a o b width height Ha Hz Hb Ho d'.
    assert (Hn : (width <? 1) || (height <? 1) = true).
    { apply orb_true_iff. destruct Hz; [left | right]; apply Z.ltb_lt; lia. }
    assert (Hl : heap d' !! a = Some (set_background o None))
      by (simpl; apply lookup_insert_eq).
    split; [unfold background_configure; rewrite Hn, Ho, Ha; reflexivity |].
    split; [exact Hl |].
    split.
    + intros x y t. eexists. unfold output_handle_geometry. rewrite Hl. simpl.
      rewrite app_nil_r. reflexivity.
    + intros s. unfold output_handle_scale. rewrite Hl. simpl.
      rewrite app_nil_r. reflexivity.
  - split; [vm_compute; discriminate |].
    split; [vm_compute; reflexivity | vm_compute; discriminate].
Qed.

Lemma zero_configure_panel_fault_witness :
  panel_configure one_output_desktop (Panel_new startup_desktop 0 false) 0 32 = None.
Proof.
  apply (proj1 zero_configure_panel_fault); [lia |].
  apply (proj1 (proj2 zero_configure_panel_fault)).
Defined.

(* ----------------------------------------------------------------- *)
(** ** Clone reconciliation *)

Lemma find_clone_none (h : gmap addr Output) (l : list addr) (a : addr) (x y : Z) :
  (forall c, c ∈ l -> is_Some (h !! c)) ->
  (forall c oc, c ∈ l -> c <> a -> h !! c = Some oc -> ~ (o_x oc = x /\ o_y oc = y)) ->
  find_clone h l a x y = Some None.
Proof.
  induction l as [|c l IH]; intros Hlive Hno; simpl; [reflexivity |].
  destruct (Nat.eqb_spec c a).
  - apply IH; intros; [apply Hlive | eapply Hno]; eauto; apply elem_of_cons; auto.
  - destruct (Hlive c ltac:(apply elem_of_cons; auto)) as [oc Hc]. rewrite Hc.
    destruct (Z.eqb_spec (o_x oc) x), (Z.eqb_spec (o_y oc) y); simpl.
    + exfalso. eapply Hno; eauto. apply elem_of_cons; auto.
    + apply IH; intros; [apply Hlive | eapply Hno]; eauto; apply elem_of_cons; auto.
    + apply IH; intros; [apply Hlive | eapply Hno]; eauto; apply elem_of_cons; auto.
    + apply IH; intros; [apply Hlive | eapply Hno]; eauto; apply elem_of_cons; auto.
Qed.

Lemma find_clone_first (h : gmap addr Output) (l1 l2 : list addr) (a r : addr)
  (rep : Output) (x y : Z) :
  (forall c, c ∈ l1 -> is_Some (h !! c)) ->
  (forall c oc, c ∈ l1 -> c <> a -> h !! c = Some oc -> ~ (o_x oc = x /\ o_y oc = y)) ->
  r <> a -> h !! r = Some rep -> o_x rep = x -> o_y rep = y ->
  find_clone h (l1 ++ r :: l2) a x y = Some (Some r).
Proof.
  intros Hlive Hno Hra Hr Hx Hy.
  induction l1 as [|c l1 IH]; simpl.
  - destruct (Nat.eqb_spec r a); [congruence |]. rewrite Hr.
    rewrite Hx, Hy, !Z.eqb_refl. reflexivity.
  - destruct (Nat.eqb_spec c a).
    + apply IH; intros; [apply Hlive | eapply Hno]; eauto; apply elem_of_cons; auto.
    + destruct (Hlive c ltac:(apply elem_of_cons; auto)) as [oc Hc]. rewrite Hc.
      destruct (Z.eqb_spec (o_x oc) x), (Z.eqb_spec (o_y oc) y); simpl.
      * exfalso. eapply Hno; eauto. apply elem_of_cons; auto.
      * apply IH; intros; [apply Hlive | eapply Hno]; eauto; apply elem_of_cons; auto.
      * apply IH; intros; [apply Hlive | eapply Hno]; eauto; apply elem_of_cons; auto.
      * apply IH; intros; [apply Hlive | eapply Hno]; eauto; apply elem_of_cons; auto.
Qed.

(** C2: removing the live Output at [a] when the collection holds only
    live Outputs.  The hand-over follows the claim: with a Background and
    [r] the first other Output of the collection at the same position,
    [r] receives the Background iff it has none and the Panel iff it has
    none (owner back-references set to [r]).  But every Panel that is not
    handed over goes through [delete panel] ([panel_destroy]), and that
    faults for every Panel the program builds: removing an Output that
    keeps its Panel crashes.  Concretely, removing the only Output, or
    one of two clones that both got a Panel, faults. *)
Theorem remove_output_panel_fault :
  (forall (d : Desktop) (a : addr) (o : Output),
   heap d !! a = Some o -> o_background o = None ->
   remove_output d a =
     match o_panel o with
     | None => Some (with_heap d (delete a (heap d)), [])
     | Some p =>
         match panel_destroy p with
         | Some rp => Some (with_heap d (delete a (heap d)), rp)
         | None => None
         end
     end) /\
  (forall (d : Desktop) (a : addr) (o : Output) (b : Background),
   (forall c, c ∈ outputs d -> is_Some (heap d !! c)) ->
   heap d !! a = Some o -> o_background o = Some b ->
   (forall c oc, c ∈ outputs d -> c <> a -> heap d !! c = Some oc ->
      ~ (o_x oc = o_x o /\ o_y oc = o_y o)) ->
   remove_output d a =
     match o_panel o with
     | None => Some (with_heap d (delete a (heap d)), [ReqDestroyBackground b])
     | Some p =>
         match panel_destroy p with
         | Some rp => Some (with_heap d (delete a (heap d)), ReqDestroyBackground b :: rp)
         | None => None
         end
     end) /\
  (forall (d : Desktop) (a : addr) (o : Output) (b : Background)
          (l1 : list addr) (r : addr) (l2 : list addr) (rep : Output),
   (forall c, c ∈ outputs d -> is_Some (heap d !! c)) ->
   heap d !! a = Some o -> o_background o = Some b ->
   outputs d = l1 ++ r :: l2 -> r <> a -> heap d !! r = Some rep ->
   o_x rep = o_x o -> o_y rep = o_y o ->
   (forall c oc, c ∈ l1 -> c <> a -> heap d !! c = Some oc ->
      ~ (o_x oc = o_x o /\ o_y oc = o_y o)) ->
   let d' := with_heap d (delete a (<[r := mkOutput (server_output_id rep) (o_x rep) (o_y rep)
              (match o_panel rep with
               | None => option_map (fun p => panel_set_owner p r) (o_panel o)
               | Some q => Some q
               end)
              (match o_background rep with
               | None => Some (bg_set_owner b r)
               | Some b' => Some b'
               end)]> (heap d))) in
   let rb := match o_background rep with
             | None => [] | Some _ => [ReqDestroyBackground b] end in
   remove_output d a =
     match o_panel o, o_panel rep with
     | Some p, Some _ =>
         match panel_destroy p with Some rp => Some (d', rb ++ rp) | None => None end
     | _, _ => Some (d', rb)
     end) /\
  (forall (d : Desktop) (a : addr) (junk : bool), panel_destroy (Panel_new d a junk) = None) /\
  run startup_desktop [EvGlobalOutput 1 0 0 false] <> None /\
  run startup_desktop [EvGlobalOutput 1 0 0 false; EvGlobalRemoveOutput 1] = None /\
  run startup_desktop [EvGlobalOutput 1 5 5 false; EvGlobalOutput 2 5 5 false] <> None /\
  run startup_desktop
    [EvGlobalOutput 1 5 5 false; EvGlobalOutput 2 5 5 false; EvGlobalRemoveOutput 1] = None.
Proof.
  split; [| split; [| split; [| split]]].
  - intros d a o Ha Hb. unfold remove_output. rewrite Ha, Hb.
    unfold Output_destroy_reqs. rewrite Hb.
    destruct (o_panel o) as [p|]; [| reflexivity].
    destruct (panel_destroy p); reflexivity.
  - intros d a o b Hlive Ha Hb Hno. unfold remove_output. rewrite Ha, Hb.
    rewrite (find_clone_none (heap d) (outputs d) a (o_x o) (o_y o) Hlive Hno).
    unfold Output_destroy_reqs. rewrite Hb.
    destruct (o_panel o) as [p|]; [| reflexivity].
    destruct (panel_destroy p); reflexivity.
  - intros d a o b l1 r l2 rep Hlive Ha Hb Hl Hra Hr Hx Hy Hno d' rb.
    unfold remove_output. rewrite Ha, Hb, Hl.
    rewrite (find_clone_first (heap d) l1 l2 a r rep (o_x o) (o_y o));
      [| intros c Hc; apply Hlive; rewrite Hl; apply elem_of_app; auto
       | exact Hno | exact Hra | exact Hr | exact Hx | exact Hy].
    rewrite Hr. unfold d', rb, hand_over, Output_destroy_reqs.
    destruct rep as [rid rx ry rp rbg]; simpl.
    destruct o as [oid ox oy op ob]; simpl in *; subst ob.
    destruct op as [q|]; destruct rbg, rp; try reflexivity;
      simpl; rewrite ?app_nil_r; destruct (panel_destroy q); reflexivity.
  - intros d a junk. apply panel_destroy_launchers, Panel_new_launchers.
  - split; [vm_compute; discriminate |].
    split; [vm_compute; reflexivity |].
    split; [vm_compute; discriminate | vm_compute; reflexivity].
Qed.

Lemma remove_output_panel_fault_witness :
  remove_output one_output_desktop 0 = None.
Proof.
  assert (Ha : heap one_output_desktop !! 0%nat =
            Some (mkOutput 1 0 0 (Some (Panel_new startup_desktop 0 false))
                    (Some (background_create startup_desktop 0)))) by reflexivity.
  rewrite (proj1 (proj2 remove_output_panel_fault) one_output_desktop 0%nat
             (mkOutput 1 0 0 (Some (Panel_new startup_desktop 0 false))
                (Some (background_create startup_desktop 0)))
             (background_create startup_desktop 0)).
  - cbn [o_panel]. rewrite (proj1 (proj2 (proj2 (proj2 remove_output_panel_fault)))).
    reflexivity.
  - intros c Hc. vm_compute in Hc.
    apply elem_of_cons in Hc as [-> | Hc]; [vm_compute; eauto |].
    apply elem_of_nil in Hc. contradiction.
  - exact Ha.
  - reflexivity.
  - intros c oc Hc Hne. vm_compute in Hc.
    apply elem_of_cons in Hc as [-> | Hc]; [congruence |].
    apply elem_of_nil in Hc. contradiction.
Defined.

(* ----------------------------------------------------------------- *)
(** ** Further properties of the code *)

Definition two_output_desktop : Desktop :=
  mkDesktop true [0%nat; 1%nat]
    (<[0%nat := mkOutput 1 0 0 (Some (mkPanel 0 true POSITION_TOP Minutes true 1))
                 (Some (mkBackground 0 true None Tile 0))]>
     (<[1%nat := mkOutput 2 0 0 None (Some (mkBackground 1 false None Tile 0))]> ∅))
    2 true POSITION_TOP Minutes false 1 None 0 "tile".


(** [parse_panel_position] enables the panel exactly for the four
    position names, defaults to the top when the key is absent, keeps the
    previous position otherwise, and prints a diagnostic only for the
    value ["none"]. *)
Theorem parse_panel_position_cases (v : option string) (old : PanelPosition) :
  let '(want, pos, log) := parse_panel_position v old in
  (v = None -> want = true /\ pos = POSITION_TOP) /\
  (want = true <->
     default "top"%string v = "top"%string \/ default "top"%string v = "bottom"%string \/
     default "top"%string v = "left"%string \/ default "top"%string v = "right"%string) /\
  (want = false -> pos = old) /\
  (log <> [] <-> default "top"%string v = "none"%string).
Proof.
  unfold parse_panel_position.
  destruct v as [s|]; [|simpl; intuition congruence].
  simpl.
  repeat match goal with
  | |- context [String.eqb ?a ?b] => destruct (String.eqb_spec a b)
  end; subst; intuition congruence.
Qed.

(** A panel built by [Panel::Panel] has a clock only for a
    format that [Panel::add_clock] handles, so its assertion is never
    reached; the clock then refreshes every second or every minute, every
    second exactly when its format shows the seconds. *)
Theorem panel_clock_refresh (d : Desktop) (a : addr) (junk : bool) :
  p_has_clock (Panel_new d a junk) = true ->
  exists fmt r, add_clock (p_clock_format (Panel_new d a junk)) = Some (fmt, r) /\
    (r = 1 \/ r = 60) /\ (r = 1 <-> shows_seconds fmt = true).
Proof.
  unfold Panel_new; simpl. destruct (clock_format d); simpl; intros H;
    try discriminate; eexists _, _; (split; [reflexivity|]); vm_compute;
    intuition congruence.
Qed.

Lemma panel_clock_refresh_witness :
  p_has_clock (Panel_new two_output_desktop 0 false) = true /\
  exists fmt r, add_clock (p_clock_format (Panel_new two_output_desktop 0 false)) =
                  Some (fmt, r) /\
    (r = 1 \/ r = 60) /\ (r = 1 <-> shows_seconds fmt = true).
Proof.
  split; [reflexivity|]. exact (panel_clock_refresh two_output_desktop 0 false eq_refl).
Defined.

(** The first expiry armed by [Panel::Clock::timer_reset] comes
    after more than 10 ms and at most one refresh period plus 10 ms, and
    falls 10 ms after a multiple of the refresh period of the seconds
    count. *)
Theorem timer_reset_alignment (refresh tm_sec tv_nsec : Z) :
  0 < refresh -> 0 <= tm_sec -> 0 <= tv_nsec < 1000000000 ->
  10000000 < timer_reset_value refresh tm_sec tv_nsec <= refresh * 1000000000 + 10000000 /\
  (tm_sec * 1000000000 + tv_nsec + timer_reset_value refresh tm_sec tv_nsec)
    mod (refresh * 1000000000) = 10000000.
Proof.
  intros Hr Ht Hn. unfold timer_reset_value.
  pose proof (Z.mod_pos_bound tm_sec refresh Hr) as Hm.
  pose proof (Z.div_mod tm_sec refresh ltac:(lia)) as Hd.
  set (q := tm_sec / refresh) in *. set (m := tm_sec mod refresh) in *.
  split; [lia|].
  symmetry. apply (Z.mod_unique _ _ (q + 1)); [lia|].
  rewrite Hd at 1. lia.
Qed.

Lemma timer_reset_alignment_witness :
  (0 < 60 /\ 0 <= 37 /\ 0 <= 500000000 < 1000000000) /\
  10000000 < timer_reset_value 60 37 500000000 <= 60 * 1000000000 + 10000000 /\
  (37 * 1000000000 + 500000000 + timer_reset_value 60 37 500000000)
    mod (60 * 1000000000) = 10000000.
Proof.
  split; [lia|]. apply timer_reset_alignment; lia.
Defined.

Lemma hex_channels_decompose (color : Z) :
  0 <= color < 2^32 ->
  hex_channels color =
    ((color / 2^16) mod 256, (color / 2^8) mod 256, color mod 256, color / 2^24) /\
  color = (color / 2^24) * 2^24 + ((color / 2^16) mod 256) * 2^16 +
          ((color / 2^8) mod 256) * 2^8 + color mod 256 /\
  0 <= color / 2^24 < 256.
Proof.
  intros Hc. unfold hex_channels.
  change 255 with (Z.ones 8).
  rewrite !Z.land_ones, !Z.shiftr_div_pow2 by lia.
  change (2 ^ 8) with 256. change (2 ^ 0) with 1. rewrite Z.div_1_r.
  assert (E16 : color / 2^16 = color / 256 / 256)
    by (rewrite Z.div_div by lia; reflexivity).
  assert (E24 : color / 2^24 = color / 256 / 256 / 256)
    by (rewrite !Z.div_div by lia; reflexivity).
  assert (B : 0 <= color / 2^24 < 256).
  { split; [apply Z.div_pos; lia|]. apply Z.div_lt_upper_bound; lia. }
  rewrite (Z.mod_small (color / 2^24) 256) by exact B.
  split; [reflexivity|]. split; [|exact B].
  rewrite E16, E24.
  pose proof (Z.div_mod color 256 ltac:(lia)).
  pose proof (Z.div_mod (color / 256) 256 ltac:(lia)).
  pose proof (Z.div_mod (color / 256 / 256) 256 ltac:(lia)).
  pose proof (Z.mod_small (color / 256 / 256 / 256) 256).
  rewrite <- E24 in *. lia.
Qed.

(** [set_hex_color] reads a [uint32_t] colour as four bytes:
    each channel lies in 0..255 and the colour is alpha, red, green and
    blue from the most to the least significant byte. *)
Theorem hex_channels_bytes (color : Z) :
  0 <= color < 2^32 ->
  let '(r, g, b, a) := hex_channels color in
  0 <= r <= 255 /\ 0 <= g <= 255 /\ 0 <= b <= 255 /\ 0 <= a <= 255 /\
  color = a * 2^24 + r * 2^16 + g * 2^8 + b.
Proof.
  intros Hc. destruct (hex_channels_decompose color Hc) as (-> & E & B).
  pose proof (Z.mod_pos_bound (color / 2^16) 256 ltac:(lia)).
  pose proof (Z.mod_pos_bound (color / 2^8) 256 ltac:(lia)).
  pose proof (Z.mod_pos_bound color 256 ltac:(lia)).
  lia.
Qed.

Lemma hex_channels_bytes_witness :
  0 <= 2164228160 < 2^32 /\
  (let '(r, g, b, a) := hex_channels 2164228160 in
   0 <= r <= 255 /\ 0 <= g <= 255 /\ 0 <= b <= 255 /\ 0 <= a <= 255 /\
   2164228160 = a * 2^24 + r * 2^16 + g * 2^8 + b).
Proof. split; [lia|]. apply hex_channels_bytes; lia. Defined.

(** Packing four bytes as alpha, red, green, blue and reading the
    result with [set_hex_color] gives the four bytes back. *)
Theorem hex_channels_encode (r g b a : Z) :
  0 <= r <= 255 -> 0 <= g <= 255 -> 0 <= b <= 255 -> 0 <= a <= 255 ->
  hex_channels (a * 2^24 + r * 2^16 + g * 2^8 + b) = (r, g, b, a).
Proof.
  intros Hr Hg Hb Ha.
  set (c := a * 2^24 + r * 2^16 + g * 2^8 + b).
  assert (Hc : 0 <= c < 2^32) by (subst c; lia).
  destruct (hex_channels_decompose c Hc) as (-> & E & B).
  pose proof (Z.mod_pos_bound (c / 2^16) 256 ltac:(lia)).
  pose proof (Z.mod_pos_bound (c / 2^8) 256 ltac:(lia)).
  pose proof (Z.mod_pos_bound c 256 ltac:(lia)).
  assert (c / 2^24 = a /\ (c / 2^16) mod 256 = r /\ (c / 2^8) mod 256 = g /\ c mod 256 = b)
    as (-> & -> & -> & ->) by (subst c; lia).
  reflexivity.
Qed.

Lemma hex_channels_encode_witness :
  (0 <= 255 <= 255 /\ 0 <= 0 <= 255 /\ 0 <= 64 <= 255 /\ 0 <= 128 <= 255) /\
  hex_channels (128 * 2^24 + 255 * 2^16 + 0 * 2^8 + 64) = (255, 0, 64, 128).
Proof. split; [lia|]. apply hex_channels_encode; lia. Defined.

Lemma owners_consistent_insert (h : gmap addr Output) (a : addr) (o : Output) :
  owners_consistent h ->
  (forall p, o_panel o = Some p -> p_owner p = a) ->
  (forall b, o_background o = Some b -> b_owner b = a) ->
  owners_consistent (<[a := o]> h).
Proof.
  intros H Hp Hb c oc Hl. lookup_cases Hl; subst; auto.
Qed.

Lemma owners_consistent_delete (h : gmap addr Output) (a : addr) :
  owners_consistent h -> owners_consistent (delete a h).
Proof. intros H c oc Hl. lookup_cases Hl. auto. Qed.

Lemma hand_over_owners (r : addr) (rep o : Output) :
  (forall p, o_panel rep = Some p -> p_owner p = r) ->
  (forall b, o_background rep = Some b -> b_owner b = r) ->
  (forall p, o_panel (fst (hand_over r rep o)) = Some p -> p_owner p = r) /\
  (forall b, o_background (fst (hand_over r rep o)) = Some b -> b_owner b = r).
Proof.
  intros Hp Hb. unfold hand_over.
  destruct (o_background rep) as [b0|] eqn:Eb; simpl;
    destruct (o_panel rep) as [p0|] eqn:Ep; simpl;
    split; intros x E; simpl in E;
    first [ apply Hp; congruence | apply Hb; congruence
          | destruct (o_panel o); simpl in E; inversion E; reflexivity
          | destruct (o_background o); simpl in E; inversion E; reflexivity ].
Qed.

Lemma check_desktop_ready_same_heap (d d' : Desktop) (rs : list Request) :
  check_desktop_ready d = Some (d', rs) -> heap d' = heap d.
Proof.
  unfold check_desktop_ready. intros H.
  repeat (case_match; simplify_eq; try discriminate); reflexivity.
Qed.

Lemma step_owners_consistent (d d' : Desktop) (e : Event) (rs : list Request) :
  owners_consistent (heap d) -> step d e = Some (d', rs) ->
  owners_consistent (heap d').
Proof.
  intros Hc Hs.
  destruct e; simpl in Hs.
  - inversion Hs; subst; exact Hc.
  - unfold Output_new, Output_init in Hs.
    destruct (shell d), (want_panel d); inversion Hs; subst; simpl;
      apply owners_consistent_insert; simpl; auto;
      intros ? E; inversion E; reflexivity.
  - unfold global_handler_remove, remove_output in Hs.
    repeat (case_match; simplify_eq; try discriminate); simpl;
      try exact Hc; apply owners_consistent_delete; auto.
    lazymatch goal with
    | E : hand_over ?r ?rp ?oo = _, L : heap d !! ?r = Some ?rp |- _ =>
        let Hp := fresh "Hp" in let Hb := fresh "Hb" in
        pose proof (hand_over_owners r rp oo (proj1 (Hc _ _ L)) (proj2 (Hc _ _ L)))
          as [Hp Hb];
        rewrite E in Hp, Hb; simpl in Hp, Hb;
        apply owners_consistent_insert; auto
    end.
  - unfold panel_redraw in Hs.
    repeat (case_match; try discriminate).
    apply check_desktop_ready_same_heap in Hs. rewrite Hs. simpl.
    match goal with L : heap d !! ?a = Some ?o, P : o_panel ?o = Some ?p |- _ =>
      let Hp := fresh "Hp" in let Hb := fresh "Hb" in destruct (Hc _ _ L) as [Hp Hb];
      apply owners_consistent_insert; simpl; auto;
      intros ? E; inversion E; subst; simpl; auto end.
  - unfold background_redraw in Hs.
    repeat (case_match; try discriminate).
    apply check_desktop_ready_same_heap in Hs. rewrite Hs. simpl.
    match goal with L : heap d !! ?a = Some ?o, P : o_background ?o = Some ?b |- _ =>
      let Hp := fresh "Hp" in let Hb := fresh "Hb" in destruct (Hc _ _ L) as [Hp Hb];
      apply owners_consistent_insert; simpl; auto;
      intros ? E; inversion E; subst; simpl; auto end.
  - unfold panel_configure in Hs.
    repeat (case_match; simplify_eq; try discriminate); simpl; auto.
    match goal with L : heap d !! ?a = Some ?o |- _ =>
      let Hp := fresh "Hp" in let Hb := fresh "Hb" in destruct (Hc _ _ L) as [Hp Hb];
      apply owners_consistent_insert; simpl; auto; intros; discriminate end.
  - unfold background_configure in Hs.
    repeat (case_match; simplify_eq; try discriminate); simpl; auto.
    match goal with L : heap d !! ?a = Some ?o |- _ =>
      let Hp := fresh "Hp" in let Hb := fresh "Hb" in destruct (Hc _ _ L) as [Hp Hb];
      apply owners_consistent_insert; simpl; auto; intros; discriminate end.
  - unfold output_handle_geometry in Hs.
    repeat (case_match; simplify_eq; try discriminate); simpl.
    match goal with L : heap d !! ?a = Some ?o |- _ =>
      let Hp := fresh "Hp" in let Hb := fresh "Hb" in destruct (Hc _ _ L) as [Hp Hb];
      apply owners_consistent_insert; simpl; auto end.
  - unfold output_handle_scale in Hs.
    repeat (case_match; simplify_eq; try discriminate); simpl; auto.
Qed.

(** Along any run of the event loop that does not fault, every panel
    and background keeps naming as its owner the Output that holds it:
    [Output::init] creates them for their Output, the clone hand-over of
    [remove_output] re-targets them, and no other handler moves them. *)
Theorem run_owners_consistent (d : Desktop) (evs : list Event) (d' : Desktop)
  (rs : list Request) :
  owners_consistent (heap d) -> run d evs = Some (d', rs) ->
  owners_consistent (heap d').
Proof.
  revert d rs. induction evs as [|e es IH]; intros d rs Hc Hr; simpl in Hr.
  - inversion Hr; subst; exact Hc.
  - destruct (step d e) as [[d1 r1]|] eqn:Hs; [|discriminate].
    destruct (run d1 es) as [[d2 r2]|] eqn:Hr'; [|discriminate].
    inversion Hr; subst.
    eapply IH; [eapply step_owners_consistent; eassumption | exact Hr'].
Qed.

(** Shell bound, no panel wanted. *)
Definition owners_desktop : Desktop :=
  mkDesktop true [] ∅ 0%nat false POSITION_TOP Iso false 1%nat None 0 "".

(** Outputs 7 and 8 share a position; the zero-size configure of 8's
    background leaves it without one, so removing 7 hands 7's background
    over to 8. *)
Lemma run_owners_consistent_witness :
  match run owners_desktop
          [EvGlobalOutput 7 0 0 false; EvGlobalOutput 8 0 0 false;
           EvBackgroundConfigure 1 0 0; EvGlobalRemoveOutput 7] with
  | Some (d', rs) =>
      owners_consistent (heap owners_desktop) /\ owners_consistent (heap d')
  | None => False
  end.
Proof.
  destruct (run owners_desktop _) as [[d' rs]|] eqn:E; [|vm_compute in E; discriminate].
  assert (H0 : owners_consistent (heap owners_desktop))
    by (intros a o Hl; simpl in Hl; rewrite lookup_empty in Hl; discriminate).
  split; [exact H0|]. exact (run_owners_consistent _ _ _ _ H0 E).
Defined.

(** Over a collection of live Outputs, [Desktop::is_painted]
    never faults, and reports painted exactly when every panel and every
    background of the collection has been painted. *)
Theorem is_painted_iff (d : Desktop) :
  (forall c, c ∈ outputs d -> is_Some (heap d !! c)) ->
  is_painted d <> None /\
  (is_painted d = Some true <->
   forall c o, c ∈ outputs d -> heap d !! c = Some o -> surfaces_painted o).
Proof.
  unfold is_painted. generalize (outputs d). intros l.
  induction l as [|a l IH]; intros Hlive; simpl.
  - split; [discriminate|]. split; [|reflexivity]. intros _ c o Hc. set_solver.
  - destruct (Hlive a ltac:(set_solver)) as [o Ho]. rewrite Ho.
    destruct IH as [IH1 IH2]; [intros; apply Hlive; set_solver|].
    assert (Hno : forall b : bool, Some b <> None) by discriminate.
    destruct (o_panel o) as [p|] eqn:Ep; [destruct (p_painted p) eqn:Epp|]; simpl;
      [| split; [apply Hno|]; split; [discriminate|]; intros Hall;
         destruct (Hall a o ltac:(set_solver) Ho) as [Hp _];
         rewrite (Hp p Ep) in Epp; discriminate
       |];
    destruct (o_background o) as [b|] eqn:Eb; try destruct (b_painted b) eqn:Ebp; simpl;
      try (split; [apply Hno|]; split; [discriminate|]; intros Hall;
           destruct (Hall a o ltac:(set_solver) Ho) as [_ Hb];
           rewrite (Hb b Eb) in Ebp; discriminate);
      (split; [exact IH1|]); rewrite IH2;
      (split;
       [ intros Hall c oc Hc Hl; apply elem_of_cons in Hc as [->|Hc];
         [ rewrite Ho in Hl; inversion Hl; subst; split; intros; congruence
         | eauto ]
       | intros Hall c oc Hc Hl; apply (Hall c oc); [set_solver | exact Hl] ]).
Qed.

Lemma is_painted_iff_witness :
  (forall c, c ∈ outputs two_output_desktop -> is_Some (heap two_output_desktop !! c)) /\
  (is_painted two_output_desktop <> None /\
  (is_painted two_output_desktop = Some true <->
   forall c o, c ∈ outputs two_output_desktop -> heap two_output_desktop !! c = Some o ->
     surfaces_painted o)).
Proof.
  assert (H : forall c, c ∈ outputs two_output_desktop -> is_Some (heap two_output_desktop !! c)).
  { intros c Hc. simpl in Hc. rewrite !elem_of_cons, elem_of_nil in Hc.
    destruct Hc as [->|[->|[]]]; vm_compute; eauto. }
  split; [exact H|]. apply is_painted_iff; exact H.
Defined.

(** The event loop sends [desktop_ready] at most once, and sends
    it exactly when the [painted] flag goes from unset to set. *)
Theorem desktop_ready_exactly_at_flip (d : Desktop) (evs : list Event) (d' : Desktop)
  (rs : list Request) :
  run d evs = Some (d', rs) ->
  (count_ready rs <= 1)%nat /\
  (count_ready rs = 1%nat <-> painted d = false /\ painted d' = true).
Proof.
  intros Hr. pose proof (run_ready_count d evs d' rs Hr) as E.
  destruct (painted d), (painted d'); simpl in E; split; try split; intros;
    try lia; intuition congruence.
Qed.

Lemma desktop_ready_exactly_at_flip_witness :
  match run two_output_desktop [EvBackgroundRedraw 1] with
  | Some (d', rs) =>
      (count_ready rs <= 1)%nat /\
      (count_ready rs = 1%nat <-> painted two_output_desktop = false /\ painted d' = true)
  | None => False
  end.
Proof.
  destruct (run two_output_desktop _) as [[d' rs]|] eqn:E; [|vm_compute in E; discriminate].
  exact (desktop_ready_exactly_at_flip _ _ _ _ E).
Defined.

Lemma is_painted_from_unpainted_bg (h : gmap addr Output) (l : list addr) (c : addr)
  (o : Output) (b : Background) :
  (forall x, x ∈ l -> is_Some (h !! x)) -> c ∈ l -> h !! c = Some o ->
  o_background o = Some b -> b_painted b = false ->
  is_painted_from h l = Some false.
Proof.
  intros Hlive Hc Ho Hb Hbp. induction l as [|a l IH]; [set_solver|].
  simpl. destruct (Hlive a ltac:(set_solver)) as [oa Ha]. rewrite Ha.
  destruct (match o_panel oa with Some p => negb (p_painted p) | None => false end);
    [reflexivity|].
  destruct (match o_background oa with Some b => negb (b_painted b) | None => false end)
    eqn:Eb; [reflexivity|].
  apply elem_of_cons in Hc as [->|Hc].
  - rewrite Ho in Ha. inversion Ha; subst. rewrite Hb, Hbp in Eb. discriminate.
  - apply IH; [intros; apply Hlive; set_solver | exact Hc].
Qed.

(** With the shell bound, announcing an output appends a fresh
    Output at the end of the collection and creates its background, and
    its panel when panels are wanted; over a live collection the desktop
    right after the announce reads as unpainted, so [check_desktop_ready]
    sends nothing at that point. *)
Theorem new_output_blocks_readiness (d : Desktop) (id x0 y0 : Z) (junk : bool)
  (d' : Desktop) (rs : list Request) :
  shell d = true -> (forall c, c ∈ outputs d -> is_Some (heap d !! c)) ->
  step d (EvGlobalOutput id x0 y0 junk) = Some (d', rs) ->
  outputs d' = outputs d ++ [next_addr d] /\
  rs = (if want_panel d then [ReqSetPanel (next_addr d)] else []) ++
       [ReqSetBackground (next_addr d)] /\
  is_painted d' = Some false /\ check_desktop_ready d' = Some (d', []).
Proof.
  intros Hsh Hlive Hs. simpl in Hs. unfold Output_new, Output_init in Hs.
  rewrite Hsh in Hs.
  assert (Hp : is_painted d' = Some false).
  { assert (HL : forall o x, x ∈ outputs d ++ [next_addr d] ->
                              is_Some (<[next_addr d := o]> (heap d) !! x)).
    { intros o x Hx. destruct (decide (x = next_addr d)) as [->|Hne].
      - rewrite lookup_insert_eq. eauto.
      - rewrite lookup_insert_ne by congruence. apply Hlive.
        apply elem_of_app in Hx as [Hx|Hx]; [exact Hx | set_solver]. }
    destruct (want_panel d); inversion Hs; subst; unfold is_painted; simpl;
      (eapply is_painted_from_unpainted_bg;
       [ apply HL
       | apply elem_of_app; right; apply list_elem_of_singleton; reflexivity
       | apply lookup_insert_eq | reflexivity | reflexivity ]). }
  split; [|split; [|split; [exact Hp|]]].
  - destruct (want_panel d); inversion Hs; reflexivity.
  - destruct (want_panel d); inversion Hs; reflexivity.
  - unfold check_desktop_ready. rewrite Hp. destruct (painted d'); reflexivity.
Qed.

Lemma new_output_blocks_readiness_witness :
  match step two_output_desktop (EvGlobalOutput 3 0 0 false) with
  | Some (d', rs) =>
      shell two_output_desktop = true /\
      (forall c, c ∈ outputs two_output_desktop -> is_Some (heap two_output_desktop !! c)) /\
      (outputs d' = outputs two_output_desktop ++ [next_addr two_output_desktop] /\
       rs = (if want_panel two_output_desktop
             then [ReqSetPanel (next_addr two_output_desktop)] else []) ++
            [ReqSetBackground (next_addr two_output_desktop)] /\
       is_painted d' = Some false /\ check_desktop_ready d' = Some (d', []))
  | None => False
  end.
Proof.
  destruct (step two_output_desktop _) as [[d' rs]|] eqn:E; [|vm_compute in E; discriminate].
  assert (H : forall c, c ∈ outputs two_output_desktop -> is_Some (heap two_output_desktop !! c)).
  { intros c Hc. simpl in Hc. rewrite !elem_of_cons, elem_of_nil in Hc.
    destruct Hc as [->|[->|[]]]; vm_compute; eauto. }
  split; [reflexivity|]. split; [exact H|].
  exact (new_output_blocks_readiness two_output_desktop 3 0 0 false d' rs eq_refl H E).
Defined.

Lemma init_pending_no_panels (junk : addr -> bool) (l : list addr) :
  forall d, want_panel d = false ->
  (forall c, c ∈ l -> exists o, heap d !! c = Some o /\ o_panel o = None) ->
  exists h', init_pending d l junk = Some (with_heap d h', map ReqSetBackground l) /\
    (forall c, c ∈ l -> exists o', h' !! c = Some o' /\ o_panel o' = None /\
                        o_background o' = Some (background_create d c)) /\
    (forall c, c ∉ l -> h' !! c = heap d !! c).
Proof.
  induction l as [|a l IH]; intros d Hw Hl; simpl.
  - exists (heap d). split; [destruct d; reflexivity|]. split; [set_solver | auto].
  - destruct (Hl a ltac:(set_solver)) as (o & Ho & Hop). rewrite Ho, Hop.
    unfold Output_init. rewrite Hw. simpl.
    set (o' := set_background o (Some (background_create d a))).
    destruct (IH (with_heap d (<[a := o']> (heap d))) Hw) as (h' & E & Hin & Hout).
    { intros c Hc. simpl. destruct (decide (c = a)) as [->|Hne].
      - rewrite lookup_insert_eq. eauto.
      - rewrite lookup_insert_ne by congruence. apply Hl. set_solver. }
    rewrite E. exists h'. split; [reflexivity|]. split.
    + intros c Hc. destruct (decide (c ∈ l)) as [Hcl|Hcl]; [exact (Hin c Hcl)|].
      apply elem_of_cons in Hc as [->|Hc]; [|contradiction].
      rewrite (Hout a Hcl). simpl. rewrite lookup_insert_eq. eexists; eauto.
    + intros c Hc. rewrite (Hout c ltac:(set_solver)). simpl.
      rewrite lookup_insert_ne by set_solver. reflexivity.
Qed.

(** When panels are not wanted, the startup pass of [main]
    re-initialises every Output of the collection, since none has a
    panel: each one, even one that already has a background, gets a new
    unpainted background and is announced again with [set_background],
    and no old background is destroyed. *)
Theorem main_init_pending_rebuilds_backgrounds (d : Desktop) (junk : addr -> bool) :
  want_panel d = false ->
  (forall c, c ∈ outputs d -> exists o, heap d !! c = Some o /\ o_panel o = None) ->
  exists d', main_init_pending d junk = Some (d', map ReqSetBackground (outputs d)) /\
    forall c, c ∈ outputs d -> exists o',
      heap d' !! c = Some o' /\ o_background o' = Some (background_create d c) /\
      b_painted (background_create d c) = false.
Proof.
  intros Hw Hl. destruct (init_pending_no_panels junk (outputs d) d Hw Hl)
    as (h' & E & Hin & _).
  exists (with_heap d h'). split; [exact E|].
  intros c Hc. destruct (Hin c Hc) as (o' & L & _ & B). eauto.
Qed.

Definition bg_only_desktop : Desktop :=
  mkDesktop true [0%nat]
    (<[0%nat := mkOutput 1 0 0 None (Some (mkBackground 0 true None Tile 0))]> ∅)
    1 false POSITION_TOP Minutes true 1 None 0 "tile".

Lemma main_init_pending_rebuilds_backgrounds_witness :
  want_panel bg_only_desktop = false /\
  (forall c, c ∈ outputs bg_only_desktop ->
     exists o, heap bg_only_desktop !! c = Some o /\ o_panel o = None) /\
  exists d', main_init_pending bg_only_desktop (fun _ => false) =
               Some (d', map ReqSetBackground (outputs bg_only_desktop)) /\
    forall c, c ∈ outputs bg_only_desktop -> exists o',
      heap d' !! c = Some o' /\ o_background o' = Some (background_create bg_only_desktop c) /\
      b_painted (background_create bg_only_desktop c) = false.
Proof.
  assert (H : forall c, c ∈ outputs bg_only_desktop ->
                exists o, heap bg_only_desktop !! c = Some o /\ o_panel o = None).
  { intros c Hc. simpl in Hc. apply list_elem_of_singleton in Hc as ->.
    eexists; split; [vm_compute; reflexivity | reflexivity]. }
  split; [reflexivity|]. split; [exact H|].
  exact (main_init_pending_rebuilds_backgrounds bg_only_desktop (fun _ => false) eq_refl H).
Defined.

Lemma button_handler_latch (s : Lock.LockState) (b : Z) (r : bool) :
  (exists dlg, Lock.unlock_dialog s = Some dlg /\
     Lock.deferred s = (if Lock.closing dlg then [Lock.UnlockTask] else [])) ->
  exists dlg, Lock.unlock_dialog (Lock.unlock_dialog_button_handler s b r) = Some dlg /\
    Lock.deferred (Lock.unlock_dialog_button_handler s b r) =
      (if Lock.closing dlg then [Lock.UnlockTask] else []) /\
    Lock.sent (Lock.unlock_dialog_button_handler s b r) = Lock.sent s.
Proof.
  intros (dlg & Hd & Hq). unfold Lock.unlock_dialog_button_handler. rewrite Hd.
  destruct ((b =? Lock.BTN_LEFT) && r && negb (Lock.closing dlg)) eqn:E.
  - apply andb_prop in E as [_ E]. apply negb_true_iff in E.
    eexists. split; [reflexivity|]. simpl. rewrite Hq, E. split; reflexivity.
  - eauto.
Qed.

Lemma buttons_keep_latch (evs : list (Z * bool)) :
  forall s, (exists dlg, Lock.unlock_dialog s = Some dlg /\
               Lock.deferred s = (if Lock.closing dlg then [Lock.UnlockTask] else [])) ->
  exists dlg, Lock.unlock_dialog (Lock.lrun s (map (fun e => Lock.LButton e.1 e.2) evs))
                = Some dlg /\
    Lock.deferred (Lock.lrun s (map (fun e => Lock.LButton e.1 e.2) evs)) =
      (if Lock.closing dlg then [Lock.UnlockTask] else []) /\
    Lock.sent (Lock.lrun s (map (fun e => Lock.LButton e.1 e.2) evs)) = Lock.sent s.
Proof.
  unfold Lock.lrun.
  induction evs as [|[b r] es IH]; intros s Hs; simpl.
  - destruct Hs as (dlg & H1 & H2). eauto.
  - destruct (button_handler_latch s b r Hs) as (dlg' & G1 & G2 & G3).
    destruct (IH (Lock.unlock_dialog_button_handler s b r) ltac:(eauto))
      as (dlg'' & K1 & K2 & K3).
    exists dlg''. rewrite K3, G3. auto.
Qed.

(** Once the unlock dialog is shown with nothing queued, any
    sequence of pointer button events queues at most one unlock task
    (the [closing] latch), keeps the dialog, and the next loop iteration
    sends one unlock request per queued task. *)
Theorem button_events_unlock_once (s : Lock.LockState) (dlg : Lock.UnlockDialog)
  (evs : list (Z * bool)) :
  Lock.unlock_dialog s = Some dlg -> Lock.closing dlg = false -> Lock.deferred s = [] ->
  let s' := Lock.lrun s (map (fun e => Lock.LButton e.1 e.2) evs) in
  is_Some (Lock.unlock_dialog s') /\
  (Lock.deferred s' = [] \/ Lock.deferred s' = [Lock.UnlockTask]) /\
  Lock.sent (Lock.dispatch_deferred s') =
    Lock.sent s ++ map (fun _ => Lock.ReqUnlock) (Lock.deferred s').
Proof.
  intros Hd Hc Hq. cbv zeta.
  assert (Inv := buttons_keep_latch evs s ltac:(exists dlg; rewrite Hc; auto)).
  destruct Inv as (dlg' & H1 & H2 & H3).
  split; [rewrite H1; eauto|].
  unfold Lock.dispatch_deferred. rewrite H2, <- H3.
  destruct (Lock.closing dlg'); simpl; rewrite ?app_nil_r; auto.
Qed.

Definition shown_dialog : Lock.LockState :=
  Lock.mkLock true (Some (Lock.mkDialog false false)) [] [Lock.ReqSetLockSurface].

Lemma button_events_unlock_once_witness :
  Lock.unlock_dialog shown_dialog = Some (Lock.mkDialog false false) /\
  Lock.closing (Lock.mkDialog false false) = false /\ Lock.deferred shown_dialog = [] /\
  (let s' := Lock.lrun shown_dialog
               (map (fun e => Lock.LButton e.1 e.2) [(272, true); (272, true); (273, true)]) in
   is_Some (Lock.unlock_dialog s') /\
   (Lock.deferred s' = [] \/ Lock.deferred s' = [Lock.UnlockTask]) /\
   Lock.sent (Lock.dispatch_deferred s') =
     Lock.sent shown_dialog ++ map (fun _ => Lock.ReqUnlock) (Lock.deferred s')).
Proof.
  split; [reflexivity|]. split; [reflexivity|]. split; [reflexivity|].
  exact (button_events_unlock_once shown_dialog _ _ eq_refl eq_refl eq_refl).
Defined.

Lemma parse_loop_env_fixed (fuel : nat) :
  forall start envp argv j, j <> 0%nat ->
  fst (Launcher.parse_loop fuel start envp argv j) = envp.
Proof.
  induction fuel as [|fuel IH]; intros start envp argv j Hj; simpl; [reflexivity|].
  destruct start as [|c s]; [reflexivity|].
  destruct (Launcher.scan_token (String c s)) as [tok p].
  destruct (Launcher.key_of tok); [destruct (j =? 0)%nat eqn:E; [apply Nat.eqb_eq in E; lia|]|];
    apply IH; lia.
Qed.

Lemma parse_loop_argv_prefix (fuel : nat) :
  forall start envp argv j,
  exists rest, snd (Launcher.parse_loop fuel start envp argv j) = argv ++ rest.
Proof.
  induction fuel as [|fuel IH]; intros start envp argv j; simpl.
  - exists []. rewrite app_nil_r. reflexivity.
  - destruct start as [|c s]; [exists []; rewrite app_nil_r; reflexivity|].
    destruct (Launcher.scan_token (String c s)) as [tok p].
    destruct (Launcher.key_of tok); [destruct (j =? 0)%nat|];
      first [ apply IH
            | destruct (IH (Launcher.skip_space p) envp (argv ++ [tok]) (S j)) as [r E];
              exists (tok :: r); rewrite E, <- app_assoc; reflexivity ].
Qed.

(** In [panel_add_launcher], a first word without ['='] is the
    command: the environment is then passed unchanged, whatever the
    later words hold, and that word is the first argument (an empty one
    when the path starts with a blank). *)
Theorem launcher_command_word (environ : list string) (path : string) :
  path <> EmptyString -> Launcher.key_of (fst (Launcher.scan_token path)) = None ->
  fst (Launcher.panel_add_launcher environ path) = environ /\
  exists rest, snd (Launcher.panel_add_launcher environ path) =
               fst (Launcher.scan_token path) :: rest.
Proof.
  intros Hne Hk. unfold Launcher.panel_add_launcher.
  destruct path as [|c s]; [congruence|]. simpl String.length.
  cbn [Launcher.parse_loop].
  destruct (Launcher.scan_token (String c s)) as [tok p] eqn:E. simpl in Hk.
  rewrite Hk. split.
  - apply parse_loop_env_fixed. lia.
  - apply parse_loop_argv_prefix.
Qed.

Lemma launcher_command_word_witness :
  (" weston-terminal FOO=1"%string <> EmptyString /\
   Launcher.key_of (fst (Launcher.scan_token " weston-terminal FOO=1"%string)) = None) /\
  (fst (Launcher.panel_add_launcher ["PATH=/bin"%string] " weston-terminal FOO=1"%string)
     = ["PATH=/bin"%string] /\
   exists rest, snd (Launcher.panel_add_launcher ["PATH=/bin"%string]
                       " weston-terminal FOO=1"%string) =
                fst (Launcher.scan_token " weston-terminal FOO=1"%string) :: rest).
Proof.
  split; [split; [discriminate | reflexivity]|].
  apply launcher_command_word; [discriminate | reflexivity].
Defined.

(** [clock_func] finds the clock whose timer fired when every
    Output before it in the collection holds a panel. *)
Theorem clock_func_finds_clock (d : Desktop) (l1 l2 : list addr) (t : addr)
  (o : Output) (p : Panel) :
  outputs d = l1 ++ t :: l2 ->
  (forall c, c ∈ l1 -> exists oc pc, heap d !! c = Some oc /\ o_panel oc = Some pc) ->
  t ∉ l1 -> heap d !! t = Some o -> o_panel o = Some p -> p_has_clock p = true ->
  clock_func d t = Some t.
Proof.
  intros Hl Hpre Ht Ho Hp Hc. unfold clock_func. rewrite Hl. clear Hl.
  induction l1 as [|a l1 IH]; simpl.
  - rewrite Ho, Hp, Hc, Nat.eqb_refl. reflexivity.
  - destruct (Hpre a ltac:(set_solver)) as (oa & pa & Ha & Hpa). rewrite Ha, Hpa.
    assert (Hat : (a =? t)%nat = false) by (apply Nat.eqb_neq; set_solver).
    rewrite Hat, andb_false_r. apply IH; [intros; apply Hpre; set_solver | set_solver].
Qed.

Lemma clock_func_finds_clock_witness :
  (outputs two_output_desktop = [] ++ 0%nat :: [1%nat] /\
   (forall c, c ∈ @nil addr -> exists oc pc, heap two_output_desktop !! c = Some oc /\
                                      o_panel oc = Some pc) /\
   (0%nat ∉ @nil addr) /\
   heap two_output_desktop !! 0%nat =
     Some (mkOutput 1 0 0 (Some (mkPanel 0 true POSITION_TOP Minutes true 1))
             (Some (mkBackground 0 true None Tile 0))) /\
   o_panel (mkOutput 1 0 0 (Some (mkPanel 0 true POSITION_TOP Minutes true 1))
             (Some (mkBackground 0 true None Tile 0))) =
     Some (mkPanel 0 true POSITION_TOP Minutes true 1) /\
   p_has_clock (mkPanel 0 true POSITION_TOP Minutes true 1) = true) /\
  clock_func two_output_desktop 0 = Some 0%nat.
Proof.
  assert (Hpre : forall c, c ∈ @nil addr -> exists oc pc,
                   heap two_output_desktop !! c = Some oc /\ o_panel oc = Some pc)
    by (intros c Hc; set_solver).
  assert (Hn : 0%nat ∉ @nil addr) by set_solver.
  split; [split; [reflexivity|]; split; [exact Hpre|]; split; [exact Hn|];
          split; [vm_compute; reflexivity|]; split; reflexivity|].
  exact (clock_func_finds_clock two_output_desktop [] [1%nat] 0 _ _ eq_refl Hpre Hn
           ltac:(vm_compute; reflexivity) eq_refl eq_refl).
Defined.

(** A background with no image and a non-zero colour is
    configured at 1x1 scaled up by a viewport to the proposed size, and
    is drawn as a fill with that colour only, whatever images load. *)
Theorem color_only_background (load : string -> bool) (d : Desktop) (b : Background)
  (width height : Z) :
  b_image b = None -> b_color b <> 0 -> 1 <= width -> 1 <= height ->
  background_configure d b width height =
    Some (d, [ReqViewport (b_owner b) width height; ReqWidgetResize (b_owner b) 1 1]) /\
  background_draw_ops load b = [OpFillColor (b_color b)].
Proof.
  intros Hi Hc Hw Hh. unfold background_configure, background_draw_ops.
  replace ((width <? 1) || (height <? 1)) with false
    by (symmetry; apply orb_false_iff; split; apply Z.ltb_ge; lia).
  rewrite Hi. replace (b_color b =? 0) with false by (symmetry; apply Z.eqb_neq; exact Hc).
  split; reflexivity.
Qed.

Lemma color_only_background_witness :
  (b_image (mkBackground 0 false None Scale 4278190335) = None /\
   b_color (mkBackground 0 false None Scale 4278190335) <> 0 /\ 1 <= 640 /\ 1 <= 480) /\
  background_configure two_output_desktop (mkBackground 0 false None Scale 4278190335) 640 480 =
    Some (two_output_desktop, [ReqViewport 0 640 480; ReqWidgetResize 0 1 1]) /\
  background_draw_ops (fun _ => true) (mkBackground 0 false None Scale 4278190335) =
    [OpFillColor 4278190335].
Proof.
  split; [split; [reflexivity|]; split; [discriminate|]; lia|].
  exact (color_only_background (fun _ => true) two_output_desktop
           (mkBackground 0 false None Scale 4278190335) 640 480
           eq_refl ltac:(discriminate) ltac:(lia) ltac:(lia)).
Defined.

Lemma find_by_id_absent (h : gmap addr Output) (l : list addr) (id : Z) :
  (forall c, c ∈ l -> exists o, h !! c = Some o /\ server_output_id o <> id) ->
  find_by_id h l id = Some None.
Proof.
  induction l as [|a l IH]; intros Hl; simpl; [reflexivity|].
  destruct (Hl a ltac:(set_solver)) as (o & Ho & Hid). rewrite Ho.
  replace (server_output_id o =? id) with false by (symmetry; apply Z.eqb_neq; exact Hid).
  apply IH. intros; apply Hl; set_solver.
Qed.

(** Removing a [wl_output] global whose id matches no Output of a
    live collection changes nothing and sends nothing. *)
Theorem remove_unknown_global_noop (d : Desktop) (id : Z) :
  (forall c, c ∈ outputs d -> exists o, heap d !! c = Some o /\ server_output_id o <> id) ->
  global_handler_remove d id = Some (d, []).
Proof.
  intros H. unfold global_handler_remove. rewrite (find_by_id_absent _ _ _ H).
  reflexivity.
Qed.

Lemma remove_unknown_global_noop_witness :
  (forall c, c ∈ outputs two_output_desktop ->
     exists o, heap two_output_desktop !! c = Some o /\ server_output_id o <> 9) /\
  global_handler_remove two_output_desktop 9 = Some (two_output_desktop, []).
Proof.
  assert (H : forall c, c ∈ outputs two_output_desktop ->
                exists o, heap two_output_desktop !! c = Some o /\ server_output_id o <> 9).
  { intros c Hc. simpl in Hc. rewrite !elem_of_cons, elem_of_nil in Hc.
    destruct Hc as [->|[->|[]]]; (eexists; split; [vm_compute; reflexivity | discriminate]). }
  split; [exact H|]. exact (remove_unknown_global_noop two_output_desktop 9 H).
Defined.

Lemma layout_launchers_packed (n : nat) :
  forall (i : nat) (horizontal : bool) (x y w h : Z),
  layout_launchers i n horizontal x y w h 0 0 =
    (map (fun k => AllocLauncher (i + k)
                     (if horizontal then x + Z.of_nat k * w else x)
                     (if horizontal then y else y + Z.of_nat k * h) (w + 1) (h + 1))
         (seq 0 n),
     if horizontal then x + Z.of_nat n * w else x,
     if horizontal then y else y + Z.of_nat n * h).
Proof.
  induction n as [|n IH]; intros i horizontal x y w h; simpl.
  - destruct horizontal; repeat f_equal; lia.
  - destruct horizontal; rewrite IH; simpl; rewrite Nat.add_0_r, ?Z.add_0_r;
      rewrite <- seq_shift, map_map;
      (match goal with |- (?L, ?b, ?c) = (?L', ?b', ?c') =>
         replace b' with b by lia; replace c' with c by lia;
         replace L' with L; [reflexivity|] end);
      f_equal; apply map_ext; intros k; f_equal; lia.
Qed.

(** [panel_resize_handler] lays the launchers out as squares of
    the panel's thickness (the smaller of width and height), packed one
    after the other along the panel, the first one widened by half the
    spacing; the clock, when the panel has one, sits at the far end of
    a horizontal panel and at the bottom of a vertical one. *)
Theorem panel_layout (p : Panel) (width height : Z) :
  (1 <= p_launchers p)%nat ->
  let m := Z.min width height in
  let w2 := if ClockFormat_eqb (p_clock_format p) Seconds then 170 else 150 in
  panel_resize_handler p width height =
  match p_position p with
  | POSITION_TOP | POSITION_BOTTOM =>
      AllocLauncher 0 0 0 (m + 6) (m + 1) ::
      map (fun k => AllocLauncher (S k) (5 + Z.of_nat (S k) * m) 0 (m + 1) (m + 1))
          (seq 0 (p_launchers p - 1)) ++
      (if p_has_clock p then [AllocClock (width - w2) 0 (w2 + 1) (m + 1)] else [])
  | POSITION_LEFT | POSITION_RIGHT =>
      AllocLauncher 0 0 0 (m + 1) (m + 6) ::
      map (fun k => AllocLauncher (S k) 0 (5 + Z.of_nat (S k) * m) (m + 1) (m + 1))
          (seq 0 (p_launchers p - 1)) ++
      (if p_has_clock p then [AllocClock 0 (height - 30) (w2 + 1) 31] else [])
  end.
Proof.
  intros Hn m w2. unfold panel_resize_handler.
  replace (if height >? width then width else height) with m
    by (subst m; destruct (Z.gtb_spec height width); lia).
  destruct (p_launchers p) as [|n] eqn:En; [lia|]. simpl Nat.sub. rewrite Nat.sub_0_r.
  fold w2.
  destruct (p_position p); cbn [layout_launchers];
    rewrite layout_launchers_packed; cbn -[Z.of_nat seq map w2 Z.mul Z.add];
    unfold DEFAULT_SPACING; change (10 / 2) with 5; change (10 * 3) with 30;
    (f_equal; [f_equal; lia|]); f_equal; apply map_ext; intros k; f_equal; lia.
Qed.

Definition sample_layout_panel : Panel := mkPanel 0 false POSITION_LEFT Seconds true 3.

Lemma panel_layout_witness :
  (1 <= p_launchers sample_layout_panel)%nat /\
  panel_resize_handler sample_layout_panel 40 600 =
    [AllocLauncher 0 0 0 41 46; AllocLauncher 1 0 45 41 41; AllocLauncher 2 0 85 41 41;
     AllocClock 0 570 171 31].
Proof.
  split; [simpl; lia|].
  rewrite (panel_layout sample_layout_panel 40 600 ltac:(simpl; lia)). reflexivity.
Defined.
